(** * bcbio-nextgen: novoalignCS alignment glue and the aligner dispatch table

    A shallow embedding of [bcbio/ngsalign/novoalignCS.py] and of the dispatch
    part of [bcbio/pipeline/alignment.py], with the properties of the
    command builder, the index remapping, the transactional output handling
    and the capability table stated and checked against the code.

    Conventions.  Python values that come from the YAML configuration are
    modelled by [pyval]; dictionaries read with [d.get(k, default)] are
    [gmap string pyval]; a function that can raise returns [exn + A]; code
    that touches the file system or spawns a process threads a [World]. *)

From Stdlib Require Import ZArith String Ascii List Bool Lia.
From stdpp Require Import base option gmap strings list pretty.

Open Scope string_scope.
Open Scope Z_scope.

(** ** Python values and the built-ins the module relies on *)

Module Py.

#[warnings="-register-all"]
Inductive pyval : Type :=
| PyNone
| PyBool (b : bool)
| PyInt (z : Z)
| PyStr (s : string)
| PyList (l : list pyval).

Inductive exn : Type :=
| KeyError (key : string)
| AttributeError (attr : string)
| TypeError (msg : string)
| NotImplementedError (msg : string)
| AssertionError (msg : string)
| CalledProcessError (cmd : string)
| PostconditionError (cmd : string).

(** [x is True] *)
Definition is_True (v : pyval) : bool :=
  match v with PyBool true => true | _ => false end.

(** [x is None] *)
Definition is_None (v : pyval) : bool :=
  match v with PyNone => true | _ => false end.

(** [isinstance(x, basestring)] *)
Definition is_basestring (v : pyval) : bool :=
  match v with PyStr _ => true | _ => false end.

(** truth value of an object in a condition *)
Definition truthy (v : pyval) : bool :=
  match v with
  | PyNone => false
  | PyBool b => b
  | PyInt z => negb (z =? 0)
  | PyStr s => negb (String.eqb s EmptyString)
  | PyList l => match l with [] => false | _ => true end
  end.

(** *** Characters *)

Definition is_upper (c : ascii) : bool :=
  let n := nat_of_ascii c in ((65 <=? n) && (n <=? 90))%nat.

Definition lower_char (c : ascii) : ascii :=
  if is_upper c then ascii_of_nat (nat_of_ascii c + 32) else c.

(** the characters [str.split()] treats as separators: space, \t, \n, \v, \f, \r *)
Definition is_space (c : ascii) : bool :=
  let n := nat_of_ascii c in ((n =? 32) || ((9 <=? n) && (n <=? 13)))%nat.

(** *** [str] methods *)

(** [s.lower()] *)
Fixpoint lower (s : string) : string :=
  match s with
  | EmptyString => EmptyString
  | String c s' => String (lower_char c) (lower s')
  end.

(** [s.split()]: the maximal runs of non-space characters, in order.
    [cur] is the word being read, most recent character first. *)
Definition flush (cur : list ascii) (acc : list string) : list string :=
  match cur with
  | [] => acc
  | _ => string_of_list_ascii (rev cur) :: acc
  end.

Fixpoint split_go (cur : list ascii) (s : string) : list string :=
  match s with
  | EmptyString => flush cur []
  | String c s' =>
      if is_space c then flush cur (split_go [] s')
      else split_go (c :: cur) s'
  end.

Definition split (s : string) : list string := split_go [] s.

(** [s.startswith(p)] *)
Fixpoint startswith (p s : string) : bool :=
  match p, s with
  | EmptyString, _ => true
  | String a p', String b s' => Ascii.eqb a b && startswith p' s'
  | String _ _, EmptyString => false
  end.

(** [s.endswith("/")] *)
Fixpoint endswith_char (c : ascii) (s : string) : bool :=
  match s with
  | EmptyString => false
  | String a EmptyString => Ascii.eqb a c
  | String _ s' => endswith_char c s'
  end.

(** [s.replace(old, new)]: every non-overlapping occurrence, left to right.
    [skip] counts the characters of a matched occurrence still to drop. *)
Fixpoint replace_go (old new : string) (skip : nat) (s : string) : string :=
  match s with
  | EmptyString =>
      match skip, old with
      | O, EmptyString => new
      | _, _ => EmptyString
      end
  | String c s' =>
      match skip with
      | S k => replace_go old new k s'
      | O =>
          if startswith old s then
            match old with
            | EmptyString => new +:+ String c (replace_go old new 0 s')
            | String _ old' => new +:+ replace_go old new (String.length old') s'
            end
          else String c (replace_go old new 0 s')
      end
  end.

Definition replace (old new s : string) : string := replace_go old new 0 s.

(** [s.rfind(c)] for a one-character needle; -1 when absent *)
Fixpoint rfind_from (c : ascii) (i : Z) (s : string) (last : Z) : Z :=
  match s with
  | EmptyString => last
  | String a s' => rfind_from c (i + 1) s' (if Ascii.eqb a c then i else last)
  end.

Definition rfind (c : ascii) (s : string) : Z := rfind_from c 0 s (-1).

(** [s[i:]] and [s[:i]] for 0 <= i *)
Definition slice_to (i : Z) (s : string) : string := substring 0 (Z.to_nat i) s.
Definition slice_from (i : Z) (s : string) : string :=
  substring (Z.to_nat i) (String.length s - Z.to_nat i) s.

(** *** [str(x)] and [repr(x)] (Python 2, 64-bit) *)

Definition hex_digit (n : nat) : ascii :=
  if (n <? 10)%nat then ascii_of_nat (48 + n) else ascii_of_nat (87 + n).

Definition quote1 : ascii := "039".
Definition quote2 : ascii := "034".
Definition backslash : ascii := "092".

Fixpoint contains_char (c : ascii) (s : string) : bool :=
  match s with
  | EmptyString => false
  | String a s' => Ascii.eqb a c || contains_char c s'
  end.

Fixpoint repr_chars (q : ascii) (s : string) : string :=
  match s with
  | EmptyString => EmptyString
  | String c s' =>
      let n := nat_of_ascii c in
      let rest := repr_chars q s' in
      if Ascii.eqb c q || Ascii.eqb c backslash then String backslash (String c rest)
      else if (n =? 9)%nat then String backslash (String "t" rest)
      else if (n =? 10)%nat then String backslash (String "n" rest)
      else if (n =? 13)%nat then String backslash (String "r" rest)
      else if (n <? 32)%nat || (127 <=? n)%nat then
        String backslash (String "x"
          (String (hex_digit (n / 16)) (String (hex_digit (n mod 16)) rest)))
      else String c rest
  end.

Definition repr_str (s : string) : string :=
  let q := if contains_char quote1 s && negb (contains_char quote2 s)
           then quote2 else quote1 in
  String q (repr_chars q s) +:+ String q EmptyString.

Definition is_long (z : Z) : bool := (z <? - 2 ^ 63) || (2 ^ 63 <=? z).

Fixpoint repr (v : pyval) : string :=
  match v with
  | PyNone => "None"
  | PyBool true => "True"
  | PyBool false => "False"
  | PyInt z => if is_long z then pretty z +:+ "L" else pretty z
  | PyStr s => repr_str s
  | PyList l => "[" +:+ String.concat ", " (map repr l) +:+ "]"
  end.

Definition str (v : pyval) : string :=
  match v with
  | PyStr s => s
  | PyInt z => pretty z
  | _ => repr v
  end.

(** [d[k]] on a dictionary *)
Definition getitem {A} (d : gmap string A) (k : string) : exn + A :=
  match d !! k with
  | Some v => inr v
  | None => inl (KeyError k)
  end.

(** [d.get(k, dflt)] *)
Definition get {A} (d : gmap string A) (k : string) (dflt : A) : A :=
  default dflt (d !! k).

(** *** [os.path] (posixpath) *)

(** [os.path.join(a, b)] *)
Definition os_path_join (a b : string) : string :=
  if startswith "/" b then b
  else if String.eqb a EmptyString || endswith_char "/" a then a +:+ b
  else a +:+ "/" +:+ b.

(** is some character of [s] at an index in [[lo, hi)] different from [c]? *)
Fixpoint some_other_between (c : ascii) (lo hi i : Z) (s : string) : bool :=
  match s with
  | EmptyString => false
  | String a s' =>
      ((lo <=? i) && (i <? hi) && negb (Ascii.eqb a c))
      || some_other_between c lo hi (i + 1) s'
  end.

(** [os.path.splitext(p)]: the extension starts at the last dot of the last
    component, unless that component has only dots before it. *)
Definition splitext (p : string) : string * string :=
  let sepIndex := rfind "/" p in
  let dotIndex := rfind "." p in
  if (sepIndex <? dotIndex) && some_other_between "." (sepIndex + 1) dotIndex 0 p
  then (slice_to dotIndex p, slice_from dotIndex p)
  else (p, EmptyString).

(** [os.path.join(a, *p)]: the components are joined from the left *)
Definition os_path_join_all (a : string) (p : list string) : string :=
  fold_left os_path_join p a.

(** [os.path.basename(p)] *)
Definition basename (p : string) : string := slice_from (rfind "/" p + 1) p.

(** [s.rstrip("/")], on the characters of [s] in reverse *)
Fixpoint lstrip_chars (c : ascii) (l : list ascii) : list ascii :=
  match l with
  | [] => []
  | a :: l' => if Ascii.eqb a c then lstrip_chars c l' else l
  end.

Definition rstrip (c : ascii) (s : string) : string :=
  string_of_list_ascii (rev (lstrip_chars c (rev (list_ascii_of_string s)))).

(** is [s] made of the character [c] only? *)
Fixpoint all_char (c : ascii) (s : string) : bool :=
  match s with
  | EmptyString => true
  | String a s' => Ascii.eqb a c && all_char c s'
  end.

(** [os.path.dirname(p)]: up to the last slash, trailing slashes dropped
    unless nothing else is left *)
Definition dirname (p : string) : string :=
  let head := slice_to (rfind "/" p + 1) p in
  if negb (String.eqb head EmptyString) && negb (all_char "/" head)
  then rstrip "/" head else head.

(** [s.endswith(suffix)] *)
Definition endswith (suffix s : string) : bool :=
  (String.length suffix <=? String.length s)%nat
  && String.eqb (substring (String.length s - String.length suffix)
                   (String.length suffix) s) suffix.

(** [s.rsplit("/", 1)[0]]: what stands before the last slash, all of [s]
    when it has none *)
Definition rsplit1_head (s : string) : string :=
  if rfind "/" s <? 0 then s else slice_to (rfind "/" s) s.

(** the line feed *)
Definition nl : string := String "010" EmptyString.

End Py.

Import Py.

(** ** Errors and configuration *)

(** A call either raises or returns: [exn + A], sequenced with [x ← m; k]. *)
Instance exn_ret : MRet (sum exn) := fun _ a => inr a.
Instance exn_bind : MBind (sum exn) := fun _ _ k m =>
  match m with
  | inl e => inl e
  | inr a => k a
  end.

(** The resolved configuration: [config["algorithm"]] and [config["resources"]]. *)
Record Config := {
  algorithm : gmap string pyval;
  resources : gmap string (gmap string pyval)
}.

(** Modelled from the spec: [config_utils.get_resources] is not part of the
    sources at hand; the spec reads the per-tool section as
    [resources.<tool>.<key>], an empty section when the tool has none. *)
Definition get_resources (name : string) (config : Config) : gmap string pyval :=
  get (resources config) name ∅.

(** ** bcbio/ngsalign/novoalignCS.py: building the command line *)

Module novoalignCS.

(** The template [@RG\tID:{rg}\tPL:{pl}\tPU:{pu}\tSM:{sample}] is formatted
    with the keys of [names]; it is a raw string, so each [\t] is a backslash
    followed by [t].  A key the template names and [names] lacks raises. *)
Definition get_rg_info (names : gmap string pyval) : exn + string :=
  rg ← getitem names "rg";
  pl ← getitem names "pl";
  pu ← getitem names "pu";
  sample ← getitem names "sample";
  inr ("@RG\tID:" +:+ str rg +:+ "\tPL:" +:+ str pl +:+ "\tPU:" +:+ str pu
       +:+ "\tSM:" +:+ str sample).

(** lines 102-107: the quality flags; [.lower()] exists on strings only *)
Definition qual_flags (config : Config) (need_quality : bool) : exn + list string :=
  if need_quality then
    match get (algorithm config) "quality_format" (PyStr EmptyString) with
    | PyStr s =>
        let qual_format := lower s in
        inr ["-F"; if String.eqb qual_format "SOLiD" then "XSQ" else "BFAST"]
    | _ => inl (AttributeError "lower")
    end
  else inr [].

(** lines 108-115: the multiple-mapper flags; the second branch is the
    [isinstance(multi_mappers, basestring)] test *)
Definition multi_flag (config : Config) : string :=
  let multi_mappers := get (algorithm config) "multiple_mappers" PyNone in
  if is_True multi_mappers then "Random"
  else match multi_mappers with
       | PyStr s => s
       | _ => "None"
       end.

Definition multi_flags (config : Config) : list string :=
  "-r" :: split (multi_flag config).

(** iterating an object in a list comprehension *)
Definition iter (v : pyval) : exn + list pyval :=
  match v with
  | PyList l => inr l
  | PyStr s => inr (map (fun c => PyStr (String c EmptyString)) (list_ascii_of_string s))
  | _ => inl (TypeError "object is not iterable")
  end.

(** lines 116-122: the extra arguments *)
Definition default_extra_args : list string := ["-o"; "FullNW"; "-k"].

Definition extra_args (config : Config) : exn + list string :=
  let resources := get_resources "novoalignCS" config in
  if is_None (get resources "options" PyNone) then inr default_extra_args
  else
    xs ← iter (get resources "options" (PyList []));
    inr (map str xs).

Definition _novoalignCS_args_from_config (config : Config) (need_quality : bool)
  : exn + list string :=
  qual_flags ← qual_flags config need_quality;
  let multi_flags := multi_flags config in
  extra_args ← extra_args config;
  inr (qual_flags ++ multi_flags ++ extra_args)%list.

(** [" ".join(...)] *)
Definition join_args (l : list string) : string := String.concat " " l.

(** *** Index remapping (lines 167-177) *)

Definition checks (ref_file : string) : list string :=
  [ replace "/seq/" "/novoalignCS/" (fst (splitext ref_file));
    fst (splitext ref_file) +:+ ".ndx";
    ref_file +:+ ".bs.ndx";
    ref_file +:+ ".ndx" ].

(** [os.path.exists] on a file system given as path -> size *)
Definition os_path_exists (fs : gmap string N) (p : string) : bool :=
  bool_decide (is_Some (fs !! p)).

(** the [for check in checks] loop with its early return *)
Fixpoint first_existing (fs : gmap string N) (cands : list string) : option string :=
  match cands with
  | [] => None
  | check :: rest =>
      if os_path_exists fs check then Some check else first_existing fs rest
  end.

Definition remap_index_fn (fs : gmap string N) (ref_file : string) : string :=
  let checks := checks ref_file in
  match first_existing fs checks with
  | Some check => check
  | None => default EmptyString (checks !! 0%nat)
  end.

(** *** Running the pipeline under the output guard *)

(** The world the module acts on: the files on disk with their sizes, and
    the shell commands spawned so far, oldest first. *)
Record World := {
  files : gmap string N;
  spawned : list string
}.

(** What an external pipeline does when it is run: whether every stage
    exited with status zero, and the size of what it left at its output
    path, if anything. *)
Record outcome := {
  exit_ok : bool;
  produced : option N
}.

(** The sample record handed to [align_pipe]: the keys of [data] it reads
    and writes. *)
Record Sample := {
  sample_config : Config;
  align_split : option pyval;
  work_bam : option string
}.

Definition set_work_bam (data : Sample) (out_file : string) : Sample :=
  {| sample_config := sample_config data;
     align_split := align_split data;
     work_bam := Some out_file |}.

(** A computation over the world that may raise. *)
Definition M (A : Type) : Type := World → (exn + A) * World.

Definition ret {A} (a : A) : M A := fun w => (inr a, w).
Definition raise {A} (e : exn) : M A := fun w => (inl e, w).
Definition lift {A} (m : exn + A) : M A := fun w => (m, w).
Definition seq {A B} (m : M A) (k : A → M B) : M B := fun w =>
  match m w with
  | (inl e, w') => (inl e, w')
  | (inr a, w') => k a w'
  end.

Notation "'do' x '<-' m ';' k" := (seq m (fun x => k))
  (at level 100, x name, m at level 99, k at level 100, right associativity).

Section Pipeline.

(** Collaborators outside the module: program lookup, the temporary
    directory, the temporary path of a transaction, the external tools and
    the size check, and the splitting helpers of [alignprep]. *)
Variable get_program : string → Config → string.
Variable curdir_tmpdir : option string → string.
Variable tx_path : string → string.
Variable shell : string → gmap string N → outcome.
Variable reasonable_size : N → option N → bool.
Variable setup_combine : string → Sample → string * Sample.
Variable split_namedpipe_cl : string → Sample → string.

(** Modelled from the spec: [utils.file_exists] is not part of the sources
    at hand; the spec skips the pipeline when the final path already exists. *)
Definition file_exists (p : string) : M bool :=
  fun w => (inr (os_path_exists (files w) p), w).

(** Modelled from the spec: [do.file_nonempty], the postcondition that the
    output file is not empty. *)
Definition file_nonempty (p : string) (w : World) : bool :=
  match files w !! p with
  | Some n => (0 <? n)%N
  | None => false
  end.

(** Modelled from the spec: [do.file_reasonable_size], the postcondition
    that the output size is within the band allowed for the input size. *)
Definition file_reasonable_size (p input : string) (w : World) : bool :=
  match files w !! p with
  | Some n => reasonable_size n (files w !! input)
  | None => false
  end.

(** Modelled from the spec: [do.run] is not part of the sources at hand.
    It spawns the command as one pipeline, whose terminal stage writes to
    [out]; a stage that exits non-zero, or a postcondition that fails
    afterwards, raises. *)
Definition do_run (cmd out : string) (checks : list (World → bool)) : M unit :=
  fun w =>
    let o := shell cmd (files w) in
    let w1 := {| files := match produced o with
                          | Some n => <[out := n]> (files w)
                          | None => files w
                          end;
                 spawned := (spawned w ++ [cmd])%list |} in
    if negb (exit_ok o) then (inl (CalledProcessError cmd), w1)
    else if forallb (fun chk => chk w1) checks then (inr tt, w1)
    else (inl (PostconditionError cmd), w1).

(** moving the temporary artifact to the final path *)
Definition promote (tx final : string) (w : World) : World :=
  match files w !! tx with
  | Some n => {| files := <[final := n]> (delete tx (files w)); spawned := spawned w |}
  | None => w
  end.

(** deleting the temporary artifact *)
Definition discard (tx : string) (w : World) : World :=
  {| files := delete tx (files w); spawned := spawned w |}.

(** Modelled from the spec: [file_transaction] is not part of the sources at
    hand.  The block runs on the temporary path; if and only if it
    completes without raising the artifact is moved to the final path,
    otherwise the artifact is deleted and the error goes on. *)
Definition file_transaction {A} (final : string) (body : string → M A) : M A :=
  fun w =>
    let tx := tx_path final in
    match body tx w with
    | (inr a, w') => (inr a, promote tx final w')
    | (inl e, w') => (inl e, discard tx w')
    end.

(** **** BAM realignment (lines 23-56) *)

Definition align_bam_stages
  (novosort novoalignCS samtools num_cores max_mem work_dir in_bam rg_info
   ref_file file_format extra_novo_args tx_out_file : string) : list string :=
  [ novosort +:+ " -c " +:+ num_cores +:+ " -m " +:+ max_mem +:+ " --compression 0 "
      +:+ " -n -t " +:+ work_dir +:+ " " +:+ in_bam +:+ " ";
    novoalignCS +:+ " -o SAM '" +:+ rg_info +:+ "' -d " +:+ ref_file
      +:+ " -f /dev/stdin " +:+ "  -F " +:+ file_format +:+ " -c " +:+ num_cores
      +:+ " " +:+ extra_novo_args +:+ " ";
    samtools +:+ " view -b -S -u - ";
    novosort +:+ " -c " +:+ num_cores +:+ " -m " +:+ max_mem +:+ " -t " +:+ work_dir
      +:+ " " +:+ "  -o " +:+ tx_out_file +:+ " /dev/stdin" ].

(** the stages of a command are written one per line and joined by pipes *)
Definition pipe (stages : list string) : string := String.concat "| " stages.

(** line 32 and line 69 *)
Definition sort_bam_path (align_dir : string) (names : gmap string pyval) : exn + string :=
  lane ← getitem names "lane";
  mret (os_path_join align_dir (str lane +:+ "-sort.bam")).

Definition align_bam_cmd (in_bam ref_file : string) (names : gmap string pyval)
  (align_dir : string) (config : Config) (extra_novo_args tx_out_file : string)
  : exn + string :=
  let novosort := get_program "novosort" config in
  let novoalignCS := get_program "novoalignCS" config in
  let samtools := get_program "samtools" config in
  let resources := get_resources "novoalignCS" config in
  let num_cores := get (algorithm config) "num_cores" (PyInt 1) in
  let max_mem := get resources "memory" (PyStr "4G") in
  let file_format := get (algorithm config) "file_format" (PyStr "BAMPE") in
  let work_dir := curdir_tmpdir (Some align_dir) in
  rg_info ← get_rg_info names;
  mret (pipe (align_bam_stages novosort novoalignCS samtools (str num_cores)
                (str max_mem) work_dir in_bam rg_info ref_file (str file_format)
                extra_novo_args tx_out_file)).

Definition align_bam (in_bam ref_file : string) (names : gmap string pyval)
  (align_dir : string) (config : Config) : M string :=
  do out_file <- lift (sort_bam_path align_dir names);
  do args <- lift (_novoalignCS_args_from_config config false);
  let extra_novo_args := join_args args in
  do present <- file_exists out_file;
  do _ <- (if negb present then
             file_transaction out_file (fun tx_out_file =>
               do cmd <- lift (align_bam_cmd in_bam ref_file names align_dir config
                                 extra_novo_args tx_out_file);
               do_run cmd tx_out_file
                 [file_nonempty tx_out_file; file_reasonable_size tx_out_file in_bam])
           else ret tt);
  ret out_file.

(** **** csfastq to BAM alignment (lines 65-97) *)

Definition align_pipe_stages
  (novoalignCS samtools rg_info ref_file fastq_file pair_file num_cores max_mem
   extra_novo_args tx_out_prefix : string) : list string :=
  [ novoalignCS +:+ " -o SAM '" +:+ rg_info +:+ "' -d " +:+ ref_file +:+ " -f "
      +:+ fastq_file +:+ " " +:+ pair_file +:+ " " +:+ "  -c " +:+ num_cores
      +:+ " " +:+ extra_novo_args +:+ " ";
    samtools +:+ " view -b -S -u - ";
    samtools +:+ " sort -@ " +:+ num_cores +:+ " -m " +:+ max_mem +:+ " - "
      +:+ tx_out_prefix ].

(** lines 68-77: the output path, the data record and the input streams,
    with [final_file] set in split mode only *)
Definition align_pipe_inputs (fastq_file : string) (pair_file : option string)
  (names : gmap string pyval) (align_dir : string) (data : Sample)
  : exn + (string * option string * Sample * string * string) :=
  let pair_file := match pair_file with
                   | Some p => if String.eqb p EmptyString then EmptyString else p
                   | None => EmptyString
                   end in
  out_file ← sort_bam_path align_dir names;
  if truthy (default PyNone (align_split data)) then
    let final_file := out_file in
    let '(out_file, data) := setup_combine final_file data in
    let fastq_file := split_namedpipe_cl fastq_file data in
    let pair_file := if String.eqb pair_file EmptyString then pair_file
                     else split_namedpipe_cl pair_file data in
    mret (out_file, Some final_file, data, fastq_file, pair_file)
  else mret (out_file, None, data, fastq_file, pair_file).

Definition align_pipe_cmd (ref_file rg_info fastq_file pair_file : string)
  (config : Config) (extra_novo_args tx_out_file : string) : string :=
  let samtools := get_program "samtools" config in
  let novoalignCS := get_program "novoalignCS" config in
  let resources := get_resources "novoalignCS" config in
  let num_cores := get (algorithm config) "num_cores" (PyInt 1) in
  let max_mem := get resources "memory" (PyStr "1G") in
  let tx_out_prefix := fst (splitext tx_out_file) in
  pipe (align_pipe_stages novoalignCS samtools rg_info ref_file fastq_file pair_file
          (str num_cores) (str max_mem) extra_novo_args tx_out_prefix).

(** The sort stage is given the prefix of [tx_out_file] and adds the
    extension back, so the pipeline leaves its output at [tx_out_file]. *)
Definition align_pipe (fastq_file : string) (pair_file : option string)
  (ref_file : string) (names : gmap string pyval) (align_dir : string)
  (data : Sample) : M Sample :=
  do inputs <- lift (align_pipe_inputs fastq_file pair_file names align_dir data);
  let '(out_file, final_file, data, fastq_file, pair_file) := inputs in
  do args <- lift (_novoalignCS_args_from_config (sample_config data) true);
  let extra_novo_args := join_args args in
  do rg_info <- lift (get_rg_info names);
  do present <- file_exists out_file;
  do final_present <- match final_file with
                      | None => ret false
                      | Some f => file_exists f
                      end;
  do _ <- (if negb present && negb final_present then
             file_transaction out_file (fun tx_out_file =>
               do_run (align_pipe_cmd ref_file rg_info fastq_file pair_file
                         (sample_config data) extra_novo_args tx_out_file)
                 tx_out_file
                 [file_nonempty tx_out_file;
                  file_reasonable_size tx_out_file fastq_file])
           else ret tt);
  ret (set_work_bam data out_file).

(** **** Plain alignment to SAM (lines 129-148) *)

Definition align_cl (fastq_file : string) (pair_file : option string)
  (ref_file : string) (config : Config) (extra_args : option (list string))
  (rg_name : pyval) : exn + list string :=
  args ← _novoalignCS_args_from_config config true;
  mret ([get_program "novoalignCS" config] ++ args ++ default [] extra_args
        ++ ["-o"; "SAM"]
        ++ (if truthy rg_name then ["'@RG\tID:" +:+ str rg_name +:+ "'"] else [])
        ++ ["-d"; ref_file; "-f"; fastq_file]
        ++ match pair_file with
           | Some p => if String.eqb p EmptyString then [] else [p]
           | None => []
           end)%list.

Definition align (fastq_file : string) (pair_file : option string)
  (ref_file out_base align_dir : string) (config : Config)
  (extra_args : option (list string)) (names : option (gmap string pyval))
  : M string :=
  let rg_name := match names with
                 | Some ns => if decide (ns = ∅) then PyNone else get ns "rg" PyNone
                 | None => PyNone
                 end in
  let out_file := os_path_join align_dir (out_base +:+ ".sam") in
  do present <- file_exists out_file;
  do _ <- (if negb present then
             do cl <- lift (align_cl fastq_file pair_file ref_file config extra_args rg_name);
             file_transaction out_file (fun tx_out_file =>
               do_run (join_args cl +:+ " > " +:+ tx_out_file) tx_out_file [])
           else ret tt);
  ret out_file.

End Pipeline.

End novoalignCS.

(** ** bcbio/pipeline/alignment.py: the table of aligners and the dispatch *)

Module alignment.

(** What the table stores: a function or constant of an aligner module,
    known here by its qualified name only, [None], or a string. *)
Inductive obj : Type :=
| Ref (qualified_name : string)
| ONone
| OStr (s : string).

Definition obj_is_None (o : obj) : bool :=
  match o with ONone => true | _ => false end.

(** line 25: [namedtuple("NgsTool", [...])] declares four fields *)
Definition NgsTool_fields : list string :=
  ["align_fn"; "bam_align_fn"; "galaxy_loc_file"; "remap_index_fn"].

(** An instance of a named tuple: its fields with their values, in order. *)
Definition namedtuple : Type := list (string * obj).

(** Calling the class of a named tuple with positional arguments: the
    number of arguments must be the number of fields ([self] counts as one
    more in the message). *)
Definition namedtuple_new (fields : list string) (args : list obj) : exn + namedtuple :=
  if (length args =? length fields)%nat then inr (zip fields args)
  else inl (TypeError ("__new__() takes exactly "
                       +:+ pretty (S (length fields)) +:+ " arguments ("
                       +:+ pretty (S (length args)) +:+ " given)")).

Definition NgsTool (args : list obj) : exn + namedtuple :=
  namedtuple_new NgsTool_fields args.

(** [t.name] on a named tuple *)
Fixpoint getattr (t : namedtuple) (name : string) : exn + obj :=
  match t with
  | [] => inl (AttributeError name)
  | (f, v) :: t' => if String.eqb f name then inr v else getattr t' name
  end.

Definition BASE_LOCATION_FILE : string := "sam_fa_indices.loc".

(** lines 31-46: the entries of the [TOOLS] display, in source order, each
    with the positional arguments its [NgsTool(...)] call is given *)
Definition TOOLS_entries : list (string * list obj) :=
  [ ("bowtie", [Ref "bowtie.align"; ONone; Ref "bowtie.galaxy_location_file"; ONone]);
    ("bowtie2", [Ref "bowtie2.align"; ONone; Ref "bowtie2.galaxy_location_file";
                 Ref "bowtie2.remap_index_fn"]);
    ("bwa", [Ref "bwa.align_pipe"; Ref "bwa.align_bam"; Ref "bwa.galaxy_location_file";
             ONone]);
    ("mosaik", [Ref "mosaik.align"; ONone; Ref "mosaik.galaxy_location_file"; ONone]);
    ("novoalign", [Ref "novoalign.align_pipe"; Ref "novoalign.align_bam";
                   Ref "novoalign.galaxy_location_file"; Ref "novoalign.remap_index_fn"]);
    ("novoalignCS", [Ref "novoalignCS.align"; Ref "novoalignCS.align_pipe";
                     Ref "novoalignCS.align_bam"; Ref "novoalignCS.galaxy_location_file";
                     Ref "novoalignCS.remap_index_fn"; Ref "novoalignCS.can_pipe"]);
    ("tophat", [Ref "tophat.align"; ONone; Ref "bowtie2.galaxy_location_file";
                Ref "bowtie2.remap_index_fn"]);
    ("samtools", [ONone; ONone; OStr BASE_LOCATION_FILE; ONone]);
    ("star", [Ref "star.align"; ONone; ONone; Ref "star.remap_index_fn"]);
    ("tophat2", [Ref "tophat.align"; ONone; Ref "bowtie2.galaxy_location_file";
                 Ref "bowtie2.remap_index_fn"]) ].

(** Evaluating a dictionary display: the entries are built in order and the
    first call that raises ends the evaluation. *)
Fixpoint dict_display (acc : gmap string namedtuple) (entries : list (string * list obj))
  : exn + gmap string namedtuple :=
  match entries with
  | [] => inr acc
  | (k, args) :: rest =>
      t ← NgsTool args;
      dict_display (<[k := t]> acc) rest
  end.

(** the module-level assignment [TOOLS = {...}], run when the module is imported *)
Definition TOOLS : exn + gmap string namedtuple := dict_display ∅ TOOLS_entries.

(** lines 71-77, up to the call of the handler: the handler selected for a
    piped FASTQ alignment *)
Definition _align_from_fastq_pipe (tools : gmap string namedtuple) (aligner : string)
  : exn + obj :=
  t ← getitem tools aligner;
  align_fn ← getattr t "pipe_align_fn";
  if obj_is_None align_fn then
    inl (NotImplementedError ("Do not yet support piped alignment with " +:+ aligner))
  else mret align_fn.

(** lines 79-90, up to the call of the handler: the handler selected for a
    BAM realignment; [align_split] is [data.get("align_split")] *)
Definition _align_from_bam (tools : gmap string namedtuple) (aligner : string)
  (align_split : pyval) : exn + obj :=
  if truthy align_split then
    inl (AssertionError "Do not handle split alignments with BAM yet")
  else
    t ← getitem tools aligner;
    align_fn ← getattr t "bam_align_fn";
    if obj_is_None align_fn then
      inl (NotImplementedError ("Do not yet support BAM alignment with " +:+ aligner))
    else mret align_fn.

(** line 48: the keys of the table whose tuple has a BAM handler, in the
    order the table is traversed *)
Fixpoint bam_keys (items : list (string * namedtuple)) : exn + list string :=
  match items with
  | [] => inr []
  | (k, v) :: rest =>
      f ← getattr v "bam_align_fn";
      ks ← bam_keys rest;
      mret (if obj_is_None f then ks else k :: ks)
  end.

Definition support_bam (tools : gmap string namedtuple) : exn + list string :=
  bam_keys (map_to_list tools).

(** lines 54-57: the directory the alignments of a sample go to;
    [genome_build] is set when the sample is disambiguated *)
Definition align_dir_parts (work sample : string) (genome_build : option string)
  : list string :=
  ([work; "align"; sample]
   ++ match genome_build with
      | Some build => [build]
      | None => []
      end)%list.

Definition align_dir (work sample : string) (genome_build : option string) : string :=
  match align_dir_parts work sample genome_build with
  | [] => EmptyString
  | a :: p => os_path_join_all a p
  end.

(** What a plain alignment function gives back: the sample record, updated
    in place, or the path of a SAM file. *)
Inductive align_out : Type :=
| OutDict (out : novoalignCS.Sample)
| OutPath (out : string).

Section FromFastq.

(** Calling a handler of the table on the inputs, and the SAM to BAM
    conversion and the sort of [bcbio.bam], which give the path of what
    they wrote. *)
Variable call : obj → novoalignCS.Sample → exn + align_out.
Variable sam_to_bam : string → Config → string.
Variable sort : string → Config → string.

(** lines 92-107 *)
Definition _align_from_fastq (tools : gmap string namedtuple) (aligner : string)
  (data : novoalignCS.Sample) : exn + novoalignCS.Sample :=
  let config := novoalignCS.sample_config data in
  t ← getitem tools aligner;
  align_fn ← getattr t "align_fn";
  if obj_is_None align_fn then inl (TypeError "'NoneType' object is not callable")
  else
    out ← call align_fn data;
    match out with
    | OutDict out =>
        match novoalignCS.work_bam out with
        | Some _ => mret out
        | None => inl (AssertionError EmptyString)
        end
    | OutPath out =>
        let work_bam := sam_to_bam out config in
        mret (novoalignCS.set_work_bam data (sort work_bam config))
    end.

End FromFastq.

(** *** Read numbers (lines 109-136) *)

(** what [open] raises on a missing file *)
Inductive io_exn : Type :=
| IOError (path : string).

(** one record as line 135 writes it *)
Definition fastq_record (name seq qual : string) : string :=
  "@" +:+ name +:+ nl +:+ seq +:+ nl +:+ "+" +:+ nl +:+ qual +:+ nl.

(** lines 129-135: the loop over the records, [i] counting from the first;
    the text written, and whether the loop left at its [break] *)
Fixpoint write_records (i : nat) (records : list (string * string * string))
  : string * bool :=
  match records with
  | [] => (EmptyString, false)
  | (name, seq, qual) :: rest =>
      if (i =? 0)%nat && negb (endswith "/1" name) then (EmptyString, true)
      else
        let name := rsplit1_head name in
        let '(text, broke) := write_records (S i) rest in
        (fastq_record name seq qual +:+ text, broke)
  end.

Section ReadNumbers.

(** The temporary path of a transaction and the FASTQ parser of Biopython,
    from the text of a file to its records (name, sequence, qualities). *)
Variable tx_path : string → string.
Variable FastqGeneralIterator : string → list (string * string * string).

(** Modelled from the spec: [file_transaction] on a disk that keeps the text
    of each file; on normal exit the temporary artifact is moved to the
    final path. *)
Definition promote_text (tx final : string) (disk : gmap string string)
  : gmap string string :=
  match disk !! tx with
  | Some text => <[final := text]> (delete tx disk)
  | None => disk
  end.

(** line 119 *)
Definition safe_path (in_file sam_file : string) : string :=
  let '(root, ext) := splitext (basename in_file) in
  os_path_join (dirname sam_file) (root +:+ "-safe" +:+ ext).

(** The disk maps a path to the text of the file.  Opening the temporary
    file for writing creates it empty before the first record is read. *)
Definition _remove_read_number (in_file sam_file : string) (disk : gmap string string)
  : (io_exn + string) * gmap string string :=
  let out_file := safe_path in_file sam_file in
  match disk !! out_file with
  | Some text =>
      if (String.length text =? 0)%nat then (inr in_file, disk)
      else (inr out_file, disk)
  | None =>
      let tx_out_file := tx_path out_file in
      match disk !! in_file with
      | None => (inl (IOError in_file), delete tx_out_file disk)
      | Some _ =>
          let disk0 := <[tx_out_file := EmptyString]> disk in
          let records := FastqGeneralIterator (default EmptyString (disk0 !! in_file)) in
          let '(text, broke) := write_records 0 records in
          (inr (if broke then in_file else out_file),
           promote_text tx_out_file out_file (<[tx_out_file := text]> disk0))
      end
  end.

End ReadNumbers.

End alignment.

(** ** Scenarios and auxiliary definitions *)

Import novoalignCS alignment.

(** A configuration given by the entries of its [algorithm] section and of
    its [resources.novoalignCS] section. *)
Definition cfg (alg : list (string * pyval)) (opts : list (string * pyval)) : Config :=
  {| algorithm := list_to_map alg;
     resources := {[ "novoalignCS" := list_to_map opts ]} |}.

(** The sample of the end-to-end scenario, and the same with its [rg] key. *)
Definition names_L1 : gmap string pyval :=
  list_to_map [("lane", PyStr "L1"); ("sample", PyStr "S1");
               ("pl", PyStr "illumina"); ("pu", PyStr "unit1")].

Definition names_rg7 : gmap string pyval := <["rg" := PyInt 7]> names_L1.

(** does [s] hold a character that [split] takes for a separator? *)
Fixpoint has_space (s : string) : bool :=
  match s with
  | EmptyString => false
  | String c s' => is_space c || has_space s'
  end.

(** the errors [do.run] raises: a failed stage or a failed postcondition *)
Definition run_failure (e : exn) : bool :=
  match e with
  | CalledProcessError _ | PostconditionError _ => true
  | _ => false
  end.

(** a computation that writes nowhere but at [out] *)
Definition writes_only {A} (out : string) (m : M A) : Prop :=
  ∀ w r w', m w = (r, w') → ∀ p, p ≠ out → files w' !! p = files w !! p.

(** Collaborators of a concrete world: programs found under their own
    name, one temporary directory, temporary paths under [/tx], tools that
    succeed, fail, or leave an empty file, and no splitting. *)
Definition prog (name : string) (config : Config) : string := name.

Definition tmpdir (base_dir : option string) : string := "/tmp/wd".

Definition tx (final : string) : string := "/tx" +:+ final.

Definition sh_ok (cmd : string) (fs : gmap string N) : outcome :=
  {| exit_ok := true; produced := Some 10%N |}.

Definition sh_fail (cmd : string) (fs : gmap string N) : outcome :=
  {| exit_ok := false; produced := Some 3%N |}.

Definition sh_empty (cmd : string) (fs : gmap string N) : outcome :=
  {| exit_ok := true; produced := Some 0%N |}.

Definition any_size (n : N) (input : option N) : bool := true.

Definition no_combine (final_file : string) (data : Sample) : string * Sample :=
  (final_file, data).

Definition no_split (f : string) (data : Sample) : string := f.

(** the scenario sample with its read group named after the lane *)
Definition names_rgL1 : gmap string pyval := <["rg" := PyStr "L1"]> names_L1.

(** the default configuration, no split, and a disk with the inputs only or
    with the outputs already there *)
Definition data0 : Sample :=
  {| sample_config := cfg [] []; align_split := None; work_bam := None |}.

Definition w0 : World :=
  {| files := {[ "in.bam" := 5%N; "r1.fq" := 5%N; "r2.fq" := 5%N ]}; spawned := [] |}.

Definition w_done : World :=
  {| files := {[ "in.bam" := 5%N; "r1.fq" := 5%N; "/w/align/S1/L1-sort.bam" := 9%N;
                 "/w/align/S1/L1.sam" := 9%N ]};
     spawned := [] |}.

(** the error a run ended with *)
Definition raised {A} (r : (exn + A) * World) : exn :=
  match fst r with
  | inl e => e
  | inr _ => KeyError EmptyString
  end.

(** the number of stages of a rendered command: one more than its pipes *)
Fixpoint pipes (cmd : string) : nat :=
  match cmd with
  | EmptyString => 0
  | String c cmd' => (if Ascii.eqb c "|" then 1 else 0) + pipes cmd'
  end.

Definition stage_count (cmd : string) : nat := S (pipes cmd).

(** does [old] occur in [s]? *)
Fixpoint occurs (old s : string) : bool :=
  startswith old s
  || match s with
     | EmptyString => false
     | String _ s' => occurs old s'
     end.

(** a word as [split] gives them: not empty and free of separators *)
Definition is_word (x : string) : Prop := x ≠ EmptyString ∧ has_space x = false.

(** the keys the read-group template names, in its order *)
Definition rg_keys : list string := ["rg"; "pl"; "pu"; "sample"].

(** a table whose tuples were all made by [NgsTool] *)
Definition table_of_NgsTool (tools : gmap string namedtuple) : Prop :=
  ∀ k t, tools !! k = Some t → ∃ args, NgsTool args = inr t.

(** an entry of a display whose [NgsTool] call has four arguments *)
Definition four_arguments (entry : string * list obj) : Prop :=
  length entry.2 = 4%nat.



(** the text of a list of records, each as line 135 writes it under the
    name [rename] gives it *)
Fixpoint fastq_text (rename : string → string)
  (records : list (string * string * string)) : string :=
  match records with
  | [] => EmptyString
  | (name, seq, qual) :: rest =>
      fastq_record (rename name) seq qual +:+ fastq_text rename rest
  end.

(** a stand-in for the FASTQ parser: it knows two files by their text *)
Definition parse_example (text : string) : list (string * string * string) :=
  if String.eqb text "paired" then [("r1/1", "AC", "II"); ("r2/1", "GT", "II")]
  else if String.eqb text "single" then [("r1", "AC", "II"); ("r2", "GT", "II")]
  else [].

(** * Properties *)

(** ** The built-ins on examples *)

Example lower_ex : lower "SOLiD" = "solid".
Proof. reflexivity. Qed.

Example split_ex : split "  All  10 " = ["All"; "10"].
Proof. reflexivity. Qed.

Example replace_ex :
  replace "/seq/" "/novoalignCS/" "/g/seq/hg19/seq/x" = "/g/novoalignCS/hg19/novoalignCS/x".
Proof. reflexivity. Qed.

Example splitext_ex :
  splitext "/g/seq/hg19.fa" = ("/g/seq/hg19", ".fa")
  ∧ splitext "/g.d/seq/.hg19" = ("/g.d/seq/.hg19", EmptyString)
  ∧ splitext "/g.d/seq/hg19" = ("/g.d/seq/hg19", EmptyString)
  ∧ splitext "a.tar.gz" = ("a.tar", ".gz").
Proof. repeat split. Qed.

Example os_path_join_ex :
  os_path_join "/w/align/S1" "L1-sort.bam" = "/w/align/S1/L1-sort.bam"
  ∧ os_path_join "/w/align/S1/" "L1-sort.bam" = "/w/align/S1/L1-sort.bam"
  ∧ os_path_join "/w/align/S1" "/L1-sort.bam" = "/L1-sort.bam".
Proof. repeat split. Qed.

Example args_default :
  _novoalignCS_args_from_config (cfg [] []) true
  = inr ["-F"; "BFAST"; "-r"; "None"; "-o"; "FullNW"; "-k"].
Proof. vm_compute. reflexivity. Qed.

Example args_custom :
  _novoalignCS_args_from_config
    (cfg [("multiple_mappers", PyStr "All 10")]
         [("options", PyList [PyStr "-a"; PyInt 3])]) false
  = inr ["-r"; "All"; "10"; "-a"; "3"].
Proof. vm_compute. reflexivity. Qed.

(** ** Quality flags *)

Lemma lower_char_not_upper (c : ascii) : is_upper (lower_char c) = false.
Proof. destruct c as [[] [] [] [] [] [] [] []]; reflexivity. Qed.

Lemma lower_no_upper (s : string) (c : ascii) (s' : string) :
  lower s = String c s' → is_upper c = false.
Proof.
  destruct s as [|a s0]; simpl; intros H; [discriminate|].
  injection H as <- _. apply lower_char_not_upper.
Qed.

Lemma lower_ne_SOLiD (s : string) : String.eqb (lower s) "SOLiD" = false.
Proof.
  apply String.eqb_neq. intros H.
  apply lower_no_upper in H. discriminate H.
Qed.

(** C5: whatever string [algorithm.quality_format] holds, in whatever case,
    the arguments rendered with the quality flags carry [-F BFAST]: the
    declared format is lowered before it is compared with [SOLiD], so the
    flag [XSQ] is never selected. *)
Theorem quality_format_always_BFAST
  (alg : gmap string pyval) (res : gmap string (gmap string pyval)) (s : string) :
  qual_flags {| algorithm := <["quality_format" := PyStr s]> alg; resources := res |} true
  = inr ["-F"; "BFAST"].
Proof.
  unfold qual_flags, get. simpl. rewrite lookup_insert_eq. simpl.
  by rewrite lower_ne_SOLiD.
Qed.

Example quality_format_solid :
  _novoalignCS_args_from_config (cfg [("quality_format", PyStr "solid")] []) true
  = inr ["-F"; "BFAST"; "-r"; "None"; "-o"; "FullNW"; "-k"]
  ∧ _novoalignCS_args_from_config (cfg [("quality_format", PyStr "SOLiD")] []) true
  = inr ["-F"; "BFAST"; "-r"; "None"; "-o"; "FullNW"; "-k"].
Proof. split; vm_compute; reflexivity. Qed.

Lemma qual_flags_absent (config : Config) :
  algorithm config !! "quality_format" = None →
  qual_flags config true = inr ["-F"; "BFAST"].
Proof. intros H. unfold qual_flags, get. by rewrite H. Qed.

Lemma qual_flags_not_needed (config : Config) : qual_flags config false = inr [].
Proof. reflexivity. Qed.

(** the shape of the rendered arguments *)
Lemma args_from_config_shape (config : Config) (need_quality : bool) (q e : list string) :
  qual_flags config need_quality = inr q →
  extra_args config = inr e →
  _novoalignCS_args_from_config config need_quality = inr (q ++ multi_flags config ++ e)%list.
Proof.
  intros Hq He. unfold _novoalignCS_args_from_config. rewrite Hq. simpl.
  rewrite He. reflexivity.
Qed.

(** ** Multiple mappers *)

Lemma split_go_no_space (s : string) (cur : list ascii) :
  has_space s = false →
  split_go cur s = flush (rev (list_ascii_of_string s) ++ cur) [].
Proof.
  revert cur. induction s as [|c s IH]; intros cur Hs; simpl in *.
  - reflexivity.
  - apply orb_false_iff in Hs as [Hc Hs]. rewrite Hc, (IH _ Hs).
    by rewrite <- app_assoc.
Qed.

Lemma split_single_word (s : string) :
  s ≠ EmptyString → has_space s = false → split s = [s].
Proof.
  intros Hne Hs. unfold split. rewrite (split_go_no_space _ _ Hs), app_nil_r.
  destruct s as [|c s]; [done|]. unfold flush.
  destruct (rev (list_ascii_of_string (String c s))) as [|a l] eqn:E.
  - apply (f_equal (@length ascii)) in E. rewrite length_rev in E. discriminate E.
  - rewrite <- E, rev_involutive, string_of_list_ascii_of_string. reflexivity.
Qed.

(** C7, as the claim words it for strings, fails: the policy string
    [Random  2] (two blanks) is cut into words, and neither the argument
    list nor the joined command line carries it verbatim after [-r]. *)
Lemma multi_mappers_string_not_verbatim :
  let config := cfg [("multiple_mappers", PyStr "Random  2")] [] in
  multi_flags config = ["-r"; "Random"; "2"]
  ∧ multi_flags config ≠ ["-r"; "Random  2"]
  ∧ join_args (multi_flags config) ≠ "-r Random  2"
  ∧ multi_flags (cfg [("multiple_mappers", PyStr EmptyString)] []) = ["-r"].
Proof. repeat split; vm_compute; congruence. Qed.

(** C7 (amended): [True] renders [-r Random]; a string renders [-r] followed
    by the words of the string, cut at white space, which is the string
    itself when it is one word; any other value, and an absent key, renders
    [-r None]. *)
Theorem multi_mappers_rendering (config : Config) :
  let mm := algorithm config !! "multiple_mappers" in
  (mm = Some (PyBool true) → multi_flags config = ["-r"; "Random"])
  ∧ (∀ s, mm = Some (PyStr s) → multi_flags config = "-r" :: split s)
  ∧ (∀ s, mm = Some (PyStr s) → s ≠ EmptyString → has_space s = false →
       multi_flags config = ["-r"; s])
  ∧ (∀ v, mm = Some v → is_True v = false → is_basestring v = false →
       multi_flags config = ["-r"; "None"])
  ∧ (mm = None → multi_flags config = ["-r"; "None"]).
Proof.
  unfold multi_flags, multi_flag, get. repeat split.
  - intros ->. reflexivity.
  - intros s ->. reflexivity.
  - intros s -> Hne Hs. simpl. by rewrite split_single_word.
  - intros v -> Ht Hb. simpl. rewrite Ht. by destruct v.
  - intros ->. reflexivity.
Qed.

Lemma multi_mappers_rendering_witness :
  multi_flags (cfg [("multiple_mappers", PyBool true)] []) = ["-r"; "Random"]
  ∧ multi_flags (cfg [("multiple_mappers", PyStr "best2")] []) = ["-r"; "best2"]
  ∧ multi_flags (cfg [("multiple_mappers", PyInt 1)] []) = ["-r"; "None"]
  ∧ multi_flags (cfg [] []) = ["-r"; "None"].
Proof.
  split; [|split; [|split]].
  - apply (proj1 (multi_mappers_rendering (cfg [("multiple_mappers", PyBool true)] []))).
    reflexivity.
  - apply (proj1 (proj2 (proj2
      (multi_mappers_rendering (cfg [("multiple_mappers", PyStr "best2")] []))))
      "best2"); [reflexivity | discriminate | reflexivity].
  - apply (proj1 (proj2 (proj2 (proj2
      (multi_mappers_rendering (cfg [("multiple_mappers", PyInt 1)] []))))) (PyInt 1));
      reflexivity.
  - apply (proj2 (proj2 (proj2 (proj2 (multi_mappers_rendering (cfg [] [])))))).
    reflexivity.
Defined.

(** ** Extra arguments *)

Lemma extra_args_list (config : Config) (l : list pyval) :
  get_resources "novoalignCS" config !! "options" = Some (PyList l) →
  extra_args config = inr (map str l).
Proof. intros H. unfold extra_args, get. rewrite H. reflexivity. Qed.

Lemma extra_args_absent (config : Config) :
  get_resources "novoalignCS" config !! "options" = None →
  extra_args config = inr default_extra_args.
Proof. intros H. unfold extra_args, get. rewrite H. reflexivity. Qed.

(** C8: when [resources.novoalignCS.options] is a list, the extra arguments
    are exactly that list, each element through [str], and they close the
    rendered arguments: the defaults [-o FullNW -k] are replaced, not merged
    in.  When the key is absent the extra arguments are exactly the
    defaults [-o FullNW -k]. *)
Theorem options_replace_default_extra_args
  (config : Config) (need_quality : bool) (q : list string) :
  qual_flags config need_quality = inr q →
  let options := get_resources "novoalignCS" config !! "options" in
  (∀ l, options = Some (PyList l) →
     extra_args config = inr (map str l)
     ∧ _novoalignCS_args_from_config config need_quality
       = inr (q ++ multi_flags config ++ map str l)%list)
  ∧ (options = None →
     extra_args config = inr ["-o"; "FullNW"; "-k"]
     ∧ _novoalignCS_args_from_config config need_quality
       = inr (q ++ multi_flags config ++ ["-o"; "FullNW"; "-k"])%list).
Proof.
  intros Hq. split.
  - intros l H. pose proof (extra_args_list _ _ H) as He.
    split; [exact He | by apply args_from_config_shape].
  - intros H. pose proof (extra_args_absent _ H) as He.
    split; [exact He | by apply args_from_config_shape].
Qed.

Lemma options_replace_default_extra_args_witness :
  _novoalignCS_args_from_config (cfg [] [("options", PyList [PyStr "-a"; PyStr "-b"])]) true
  = inr ["-F"; "BFAST"; "-r"; "None"; "-a"; "-b"]
  ∧ _novoalignCS_args_from_config (cfg [] []) true
  = inr ["-F"; "BFAST"; "-r"; "None"; "-o"; "FullNW"; "-k"].
Proof.
  split.
  - apply (proj1 (options_replace_default_extra_args
                    (cfg [] [("options", PyList [PyStr "-a"; PyStr "-b"])]) true
                    ["-F"; "BFAST"] eq_refl)
                 [PyStr "-a"; PyStr "-b"] eq_refl).
  - apply (proj2 (options_replace_default_extra_args (cfg [] []) true
                    ["-F"; "BFAST"] eq_refl) eq_refl).
Defined.

Example options_override_ex :
  extra_args (cfg [] [("options", PyList [PyStr "-a"; PyStr "-b"])]) = inr ["-a"; "-b"]
  ∧ extra_args (cfg [] [("options", PyList [])]) = inr []
  ∧ extra_args (cfg [] [("options", PyNone)]) = inr ["-o"; "FullNW"; "-k"].
Proof. repeat split; vm_compute; reflexivity. Qed.

(** ** Index remapping *)

Lemma first_existing_spec (fs : gmap string N) (cands : list string) :
  match first_existing fs cands with
  | Some c => ∃ pre post, cands = (pre ++ c :: post)%list
                ∧ os_path_exists fs c = true
                ∧ Forall (λ x, os_path_exists fs x = false) pre
  | None => Forall (λ x, os_path_exists fs x = false) cands
  end.
Proof.
  induction cands as [|x rest IH]; simpl.
  - constructor.
  - destruct (os_path_exists fs x) eqn:Hx.
    + exists [], rest. repeat split; [done | constructor].
    + destruct (first_existing fs rest) as [c|].
      * destruct IH as (pre & post & -> & Hc & Hpre).
        exists (x :: pre), post. repeat split; [done | by constructor].
      * by constructor.
Qed.

(** C9: the candidates are, in order, the extension-stripped path with
    [/seq/] replaced by [/novoalignCS/], the extension replaced by [.ndx],
    the path plus [.bs.ndx], and the path plus [.ndx]; the result is the
    first candidate that exists, all earlier ones being absent, or the
    first candidate when none exists. *)
Theorem remap_index_fn_first_existing (fs : gmap string N) (ref_file : string) :
  let stripped := fst (splitext ref_file) in
  let guess := replace "/seq/" "/novoalignCS/" stripped in
  let r := remap_index_fn fs ref_file in
  checks ref_file
  = [guess; stripped +:+ ".ndx"; ref_file +:+ ".bs.ndx"; ref_file +:+ ".ndx"]
  ∧ ((∃ pre post, checks ref_file = (pre ++ r :: post)%list
        ∧ os_path_exists fs r = true
        ∧ Forall (λ x, os_path_exists fs x = false) pre)
     ∨ (Forall (λ x, os_path_exists fs x = false) (checks ref_file) ∧ r = guess)).
Proof.
  split; [reflexivity|].
  unfold remap_index_fn.
  pose proof (first_existing_spec fs (checks ref_file)) as H.
  destruct (first_existing fs (checks ref_file)) as [c|].
  - left. exact H.
  - right. split; [exact H | reflexivity].
Qed.

Example remap_index_fn_ex :
  remap_index_fn {[ "/g/seq/hg19.fa.ndx" := 7%N; "/g/seq/hg19.ndx" := 9%N ]} "/g/seq/hg19.fa"
  = "/g/seq/hg19.ndx"
  ∧ remap_index_fn {[ "/g/novoalignCS/hg19" := 7%N; "/g/seq/hg19.ndx" := 9%N ]} "/g/seq/hg19.fa"
  = "/g/novoalignCS/hg19"
  ∧ remap_index_fn ∅ "/g/seq/hg19.fa" = "/g/novoalignCS/hg19".
Proof. repeat split; vm_compute; reflexivity. Qed.

(** ** The table of aligners *)

Lemma NgsTool_four_fields (args : list obj) (t : namedtuple) :
  NgsTool args = inr t → length args = 4%nat ∧ t = zip NgsTool_fields args.
Proof.
  unfold NgsTool, namedtuple_new. destruct (Nat.eqb_spec (length args) (length NgsTool_fields)) as [E|E].
  - intros H. injection H as <-. split; [exact E | reflexivity].
  - discriminate.
Qed.

(** no tuple of the table has a [pipe_align_fn] attribute *)
Lemma NgsTool_no_pipe_align_fn (args : list obj) (t : namedtuple) :
  NgsTool args = inr t → getattr t "pipe_align_fn" = inl (AttributeError "pipe_align_fn").
Proof.
  intros H. apply NgsTool_four_fields in H as [Hlen ->].
  destruct args as [|a1 [|a2 [|a3 [|a4 [|a5 args]]]]]; try discriminate Hlen.
  reflexivity.
Qed.

Lemma fastq_pipe_dispatch_raises_AttributeError
  (tools : gmap string namedtuple) (aligner : string) (args : list obj) (t : namedtuple) :
  tools !! aligner = Some t → NgsTool args = inr t →
  _align_from_fastq_pipe tools aligner = inl (AttributeError "pipe_align_fn").
Proof.
  intros Ht Hargs. unfold _align_from_fastq_pipe, getitem. rewrite Ht. simpl.
  by rewrite (NgsTool_no_pipe_align_fn _ _ Hargs).
Qed.

Lemma dispatch_unknown_tool_raises_KeyError
  (tools : gmap string namedtuple) (aligner : string) :
  tools !! aligner = None →
  _align_from_fastq_pipe tools aligner = inl (KeyError aligner)
  ∧ _align_from_bam tools aligner PyNone = inl (KeyError aligner).
Proof.
  intros Ht. unfold _align_from_fastq_pipe, _align_from_bam, getitem. rewrite Ht.
  split; reflexivity.
Qed.

(** a registered tool whose BAM handler is [None] is reported as unsupported *)
Lemma bam_dispatch_unsupported
  (tools : gmap string namedtuple) (aligner : string) (t : namedtuple) (a g r : obj) :
  tools !! aligner = Some t → NgsTool [a; ONone; g; r] = inr t →
  _align_from_bam tools aligner PyNone
  = inl (NotImplementedError ("Do not yet support BAM alignment with " +:+ aligner)).
Proof.
  intros Ht Hargs. apply NgsTool_four_fields in Hargs as [_ ->].
  unfold _align_from_bam, getitem. rewrite Ht. reflexivity.
Qed.

(** C3: the table is not populated: the [novoalignCS] entry calls the
    four-field [NgsTool] with six arguments, so evaluating the [TOOLS]
    display raises a [TypeError] when the module is imported. *)
Theorem TOOLS_construction_raises :
  TOOLS = inl (TypeError "__new__() takes exactly 5 arguments (7 given)").
Proof. vm_compute. reflexivity. Qed.

Example fastq_pipe_dispatch_bowtie :
  _align_from_fastq_pipe
    {[ "bowtie" := zip NgsTool_fields
                     [Ref "bowtie.align"; ONone; Ref "bowtie.galaxy_location_file"; ONone] ]}
    "bowtie"
  = inl (AttributeError "pipe_align_fn").
Proof. vm_compute. reflexivity. Qed.

(** ** The read-group string *)

(** C6, as the claim words it, fails: a record with exactly the fields
    lane, sample, pl and pu raises [KeyError], and when [rg] is present the
    identifier is [rg], not the lane. *)
Lemma rg_info_ID_not_lane :
  get_rg_info names_L1 = inl (KeyError "rg")
  ∧ get_rg_info names_rg7 = inr "@RG\tID:7\tPL:illumina\tPU:unit1\tSM:S1"
  ∧ get_rg_info names_rg7 ≠ inr "@RG\tID:L1\tPL:illumina\tPU:unit1\tSM:S1".
Proof. repeat split; vm_compute; congruence. Qed.

Lemma get_rg_info_fields (names : gmap string pyval) (rg pl pu sample : pyval) :
  names !! "rg" = Some rg → names !! "pl" = Some pl →
  names !! "pu" = Some pu → names !! "sample" = Some sample →
  get_rg_info names
  = inr ("@RG\tID:" +:+ str rg +:+ "\tPL:" +:+ str pl +:+ "\tPU:" +:+ str pu
         +:+ "\tSM:" +:+ str sample).
Proof.
  intros Hrg Hpl Hpu Hs. unfold get_rg_info, getitem.
  rewrite Hrg, Hpl, Hpu, Hs. reflexivity.
Qed.

(** ** The guarded pipeline *)

Lemma os_path_exists_false (fs : gmap string N) (p : string) :
  os_path_exists fs p = false ↔ fs !! p = None.
Proof.
  unfold os_path_exists. rewrite bool_decide_eq_false, <- eq_None_not_Some. done.
Qed.

Lemma os_path_exists_true (fs : gmap string N) (p : string) :
  os_path_exists fs p = true ↔ is_Some (fs !! p).
Proof. unfold os_path_exists. by rewrite bool_decide_eq_true. Qed.

Lemma args_error_kind (config : Config) (need_quality : bool) (e : exn) :
  _novoalignCS_args_from_config config need_quality = inl e → run_failure e = false.
Proof.
  unfold _novoalignCS_args_from_config, qual_flags, extra_args, iter.
  repeat (case_match; simpl in *; try congruence); by intros [= <-].
Qed.

Lemma get_rg_info_error_kind (names : gmap string pyval) (e : exn) :
  get_rg_info names = inl e → run_failure e = false.
Proof.
  unfold get_rg_info, getitem.
  repeat (case_match; simpl in *; try congruence); by intros [= <-].
Qed.

Lemma sort_bam_path_error_kind (align_dir : string) (names : gmap string pyval) (e : exn) :
  sort_bam_path align_dir names = inl e → run_failure e = false.
Proof.
  unfold sort_bam_path, getitem.
  repeat (case_match; simpl in *; try congruence); by intros [= <-].
Qed.

Section PipelineProperties.

Variable get_program : string → Config → string.
Variable curdir_tmpdir : option string → string.
Variable tx_path : string → string.
Variable shell : string → gmap string N → outcome.
Variable reasonable_size : N → option N → bool.
Variable setup_combine : string → Sample → string * Sample.
Variable split_namedpipe_cl : string → Sample → string.

Local Abbreviation run_bam :=
  (align_bam get_program curdir_tmpdir tx_path shell reasonable_size).
Local Abbreviation run_pipe :=
  (align_pipe get_program tx_path shell reasonable_size setup_combine split_namedpipe_cl).
Local Abbreviation run_align := (align get_program tx_path shell).

Lemma do_run_writes_only (cmd out : string) (checks : list (World → bool)) :
  writes_only out (do_run shell cmd out checks).
Proof.
  intros w r w' H p Hp. unfold do_run in H.
  repeat case_match; injection H as _ <-; simpl;
    try reflexivity; by rewrite lookup_insert_ne.
Qed.

Lemma do_run_spawned (cmd out : string) (checks : list (World → bool))
  (w : World) (r : exn + unit) (w' : World) :
  do_run shell cmd out checks w = (r, w') → spawned w' = (spawned w ++ [cmd])%list.
Proof.
  unfold do_run. intros H. repeat case_match; by injection H as _ <-.
Qed.

Lemma lift_seq_writes_only {A B} (out : string) (x : exn + A) (k : A → M B) :
  (∀ a, writes_only out (k a)) → writes_only out (seq (lift x) k).
Proof.
  intros Hk w r w' H p Hp. unfold seq, lift in H. destruct x as [e|a].
  - by injection H as _ <-.
  - by eapply Hk.
Qed.

(** When the guarded block raises, the temporary artifact is gone and
    every path that was absent before, other than it, is still absent. *)
Lemma file_transaction_raises {A} (final : string) (body : string → M A)
  (w : World) (e : exn) (w' : World) :
  writes_only (tx_path final) (body (tx_path final)) →
  file_transaction tx_path final body w = (inl e, w') →
  files w' !! tx_path final = None
  ∧ (∀ p, files w !! p = None → files w' !! p = None)
  ∧ ∃ w1, body (tx_path final) w = (inl e, w1).
Proof.
  intros Hbody H. unfold file_transaction in H.
  destruct (body (tx_path final) w) as [[e0|a] w1] eqn:E; [|discriminate H].
  injection H as -> <-. simpl. split; [apply lookup_delete_eq|]. split; [|by eexists].
  intros p Hp. destruct (decide (p = tx_path final)) as [->|Hne].
  - apply lookup_delete_eq.
  - rewrite lookup_delete_ne by done. by rewrite (Hbody _ _ _ E p Hne).
Qed.

(** C1: when [align_bam], [align_pipe] or [align] ends because a stage of
    the pipeline failed or a postcondition failed, the final output path
    holds no file afterwards and the temporary artifact is deleted; in split
    mode of [align_pipe] this holds for the combined final file too. *)
Theorem failed_run_leaves_final_path_absent :
  (∀ in_bam ref_file names align_dir config w e w' out_file,
     sort_bam_path align_dir names = inr out_file →
     run_bam in_bam ref_file names align_dir config w = (inl e, w') →
     run_failure e = true →
     files w' !! out_file = None ∧ files w' !! tx_path out_file = None)
  ∧ (∀ fastq_file pair_file ref_file names align_dir data w e w'
       out_file final_file data' fastq_file' pair_file',
     align_pipe_inputs setup_combine split_namedpipe_cl fastq_file pair_file names
       align_dir data = inr (out_file, final_file, data', fastq_file', pair_file') →
     run_pipe fastq_file pair_file ref_file names align_dir data w = (inl e, w') →
     run_failure e = true →
     files w' !! out_file = None ∧ files w' !! tx_path out_file = None
     ∧ ∀ f, final_file = Some f → files w' !! f = None)
  ∧ (∀ fastq_file pair_file ref_file out_base align_dir config extra_args names w e w',
     run_align fastq_file pair_file ref_file out_base align_dir config extra_args names w
     = (inl e, w') →
     run_failure e = true →
     let out_file := os_path_join align_dir (out_base +:+ ".sam") in
     files w' !! out_file = None ∧ files w' !! tx_path out_file = None).
Proof.
  split; [|split].
  - intros in_bam ref_file names align_dir config w e w' out_file Hout H He.
    unfold align_bam, seq, lift, file_exists, ret in H. rewrite Hout in H.
    destruct (_novoalignCS_args_from_config config false) as [e0|args] eqn:Hargs.
    { injection H as -> _. apply args_error_kind in Hargs. congruence. }
    destruct (os_path_exists (files w) out_file) eqn:Hex; simpl in H; [discriminate H|].
    destruct (file_transaction _ _ _ w) as [[e1|[]] w1] eqn:Htx; [|discriminate H].
    injection H as -> ->.
    apply file_transaction_raises in Htx as (Htmp & Hkeep & _).
    + split; [|exact Htmp]. apply Hkeep. by apply os_path_exists_false.
    + apply lift_seq_writes_only. intros cmd. apply do_run_writes_only.
  - intros fastq_file pair_file ref_file names align_dir data w e w'
      out_file final_file data' fastq_file' pair_file' Hin H He.
    unfold align_pipe, seq, lift, file_exists, ret in H. rewrite Hin in H.
    destruct (_novoalignCS_args_from_config (sample_config data') true) as [e0|args] eqn:Hargs.
    { injection H as -> _. apply args_error_kind in Hargs. congruence. }
    destruct (get_rg_info names) as [e0|rg_info] eqn:Hrg.
    { injection H as -> _. apply get_rg_info_error_kind in Hrg. congruence. }
    destruct (os_path_exists (files w) out_file) eqn:Hex; simpl in H.
    { destruct final_file as [f|]; simpl in H; discriminate H. }
    assert (∀ f, final_file = Some f → os_path_exists (files w) f = false) as Hfinal.
    { intros f ->. simpl in H.
      destruct (os_path_exists (files w) f); [discriminate H | reflexivity]. }
    assert (∃ w1 : World,
              file_transaction tx_path out_file
                (λ tx_out_file,
                   do_run shell
                     (align_pipe_cmd get_program ref_file rg_info fastq_file' pair_file'
                        (sample_config data') (join_args args) tx_out_file)
                     tx_out_file
                     [file_nonempty tx_out_file;
                      file_reasonable_size reasonable_size tx_out_file fastq_file']) w
              = (inl e, w1) ∧ w' = w1) as (w1 & Htx & ->).
    { destruct final_file as [f|]; simpl in H.
      - rewrite (Hfinal f eq_refl) in H. simpl in H.
        destruct (file_transaction _ _ _ w) as [[e1|[]] w1]; [|discriminate H].
        injection H as -> ->. by eexists.
      - destruct (file_transaction _ _ _ w) as [[e1|[]] w1]; [|discriminate H].
        injection H as -> ->. by eexists. }
    apply file_transaction_raises in Htx as (Htmp & Hkeep & _).
    + split; [|split; [exact Htmp|]].
      * apply Hkeep. by apply os_path_exists_false.
      * intros f Hf. apply Hkeep. apply os_path_exists_false. by apply Hfinal.
    + apply do_run_writes_only.
  - intros fastq_file pair_file ref_file out_base align_dir config extra_args names
      w e w' H He out_file.
    unfold align, seq, lift, file_exists, ret in H. fold out_file in H.
    destruct (os_path_exists (files w) out_file) eqn:Hex; simpl in H; [discriminate H|].
    destruct (align_cl _ _ _ _ _ _ _) as [e0|cl] eqn:Hcl.
    { injection H as -> _. unfold align_cl in Hcl.
      destruct (_novoalignCS_args_from_config config true) eqn:Hargs; [|discriminate Hcl].
      injection Hcl as ->. apply args_error_kind in Hargs. congruence. }
    destruct (file_transaction _ _ _ w) as [[e1|[]] w1] eqn:Htx; [|discriminate H].
    injection H as -> ->.
    apply file_transaction_raises in Htx as (Htmp & Hkeep & _).
    + split; [|exact Htmp]. apply Hkeep. by apply os_path_exists_false.
    + apply do_run_writes_only.
Qed.

(** C2 (amended): when the final output file, the path [out_file] the
    transaction guards, exists before the call, no stage is spawned and
    nothing on disk changes.  [align] then returns that path; [align_bam]
    returns it provided the arguments it renders before the check render;
    [align_pipe] returns the record with [work_bam] set to it provided the
    arguments and the read-group string it renders before the check render.
    In split mode of [align_pipe] an existing combined file skips the
    pipeline as well. *)
Theorem existing_output_skips_pipeline :
  (∀ in_bam ref_file names align_dir config w out_file,
     sort_bam_path align_dir names = inr out_file →
     os_path_exists (files w) out_file = true →
     snd (run_bam in_bam ref_file names align_dir config w) = w
     ∧ ∀ args, _novoalignCS_args_from_config config false = inr args →
         run_bam in_bam ref_file names align_dir config w = (inr out_file, w))
  ∧ (∀ fastq_file pair_file ref_file names align_dir data w
       out_file final_file data' fastq_file' pair_file',
     align_pipe_inputs setup_combine split_namedpipe_cl fastq_file pair_file names
       align_dir data = inr (out_file, final_file, data', fastq_file', pair_file') →
     os_path_exists (files w) out_file = true
     ∨ (∃ f, final_file = Some f ∧ os_path_exists (files w) f = true) →
     snd (run_pipe fastq_file pair_file ref_file names align_dir data w) = w
     ∧ ∀ args rg_info,
         _novoalignCS_args_from_config (sample_config data') true = inr args →
         get_rg_info names = inr rg_info →
         run_pipe fastq_file pair_file ref_file names align_dir data w
         = (inr (set_work_bam data' out_file), w))
  ∧ (∀ fastq_file pair_file ref_file out_base align_dir config extra_args names w,
     os_path_exists (files w) (os_path_join align_dir (out_base +:+ ".sam")) = true →
     run_align fastq_file pair_file ref_file out_base align_dir config extra_args names w
     = (inr (os_path_join align_dir (out_base +:+ ".sam")), w)).
Proof.
  split; [|split].
  - intros in_bam ref_file names align_dir config w out_file Hout Hex.
    unfold align_bam, seq, lift, file_exists, ret. rewrite Hout.
    destruct (_novoalignCS_args_from_config config false) as [e0|args0]; simpl.
    + split; [reflexivity | discriminate].
    + rewrite Hex. simpl. split; [reflexivity | by intros args _].
  - intros fastq_file pair_file ref_file names align_dir data w
      out_file final_file data' fastq_file' pair_file' Hin Hex.
    unfold align_pipe, seq, lift, file_exists, ret. rewrite Hin.
    destruct (_novoalignCS_args_from_config (sample_config data') true) as [e0|args0]; simpl.
    { split; [reflexivity | discriminate]. }
    destruct (get_rg_info names) as [e0|rg0]; simpl.
    { split; [reflexivity | discriminate]. }
    assert (∀ A (x y : A),
              (if negb (os_path_exists (files w) out_file)
                  && negb (match final_file with
                           | Some f => os_path_exists (files w) f
                           | None => false
                           end)
               then x else y) = y) as Hskip.
    { intros A x y. destruct Hex as [->|(f & -> & ->)]; simpl; [reflexivity|].
      by rewrite andb_false_r. }
    destruct final_file as [f|]; simpl; simpl in Hskip; rewrite Hskip; simpl;
      (split; [reflexivity | by intros args rg_info _ _]).
  - intros fastq_file pair_file ref_file out_base align_dir config extra_args names w Hex.
    unfold align, seq, lift, file_exists, ret. rewrite Hex. reflexivity.
Qed.

Lemma promote_spawned (tx final : string) (w : World) :
  spawned (promote tx final w) = spawned w.
Proof. unfold promote. by destruct (files w !! tx). Qed.

Lemma truthy_pair_file (p : string) :
  (if String.eqb p EmptyString then EmptyString else p) = p.
Proof. by destruct (String.eqb_spec p EmptyString) as [->|]. Qed.

(** C4 (amended): a FASTQ alignment that is not split spawns one pipeline
    of exactly three stages, the alignment, the conversion to BAM by
    [samtools view] and the sort to the prefix of the guarded temporary
    output, and the record returned points at
    [<align_dir>/<lane>-sort.bam]. *)
Theorem align_pipe_three_stages
  (fastq_file : string) (pair_file : option string) (ref_file : string)
  (names : gmap string pyval) (align_dir : string) (data : Sample)
  (lane : pyval) (args : list string) (rg_info : string) (w : World) :
  truthy (default PyNone (align_split data)) = false →
  names !! "lane" = Some lane →
  _novoalignCS_args_from_config (sample_config data) true = inr args →
  get_rg_info names = inr rg_info →
  let out_file := os_path_join align_dir (str lane +:+ "-sort.bam") in
  os_path_exists (files w) out_file = false →
  let config := sample_config data in
  let pair := default EmptyString pair_file in
  let num_cores := str (get (algorithm config) "num_cores" (PyInt 1)) in
  let max_mem := str (get (get_resources "novoalignCS" config) "memory" (PyStr "1G")) in
  let r := run_pipe fastq_file pair_file ref_file names align_dir data w in
  spawned (snd r)
  = (spawned w ++
     [pipe [ get_program "novoalignCS" config +:+ " -o SAM '" +:+ rg_info +:+ "' -d "
               +:+ ref_file +:+ " -f " +:+ fastq_file +:+ " " +:+ pair +:+ " "
               +:+ "  -c " +:+ num_cores +:+ " " +:+ join_args args +:+ " ";
             get_program "samtools" config +:+ " view -b -S -u - ";
             get_program "samtools" config +:+ " sort -@ " +:+ num_cores +:+ " -m "
               +:+ max_mem +:+ " - " +:+ fst (splitext (tx_path out_file)) ]])%list
  ∧ (∀ d, fst r = inr d → work_bam d = Some out_file).
Proof.
  intros Hsplit Hlane Hargs Hrg out_file Hex config pair num_cores max_mem r.
  assert (align_pipe_inputs setup_combine split_namedpipe_cl fastq_file pair_file names
            align_dir data = inr (out_file, None, data, fastq_file, pair)) as Hin.
  { unfold align_pipe_inputs, sort_bam_path, getitem. rewrite Hlane. simpl.
    rewrite Hsplit. simpl. do 3 f_equal. subst pair.
    destruct pair_file as [p|]; simpl; [apply truthy_pair_file | reflexivity]. }
  subst r. unfold align_pipe, seq, lift, file_exists, ret. rewrite Hin, Hargs, Hrg, Hex.
  simpl. unfold file_transaction.
  destruct (do_run _ _ _ _ w) as [[e|[]] w1] eqn:Hrun; simpl;
    apply do_run_spawned in Hrun; rewrite ?promote_spawned; (split; [exact Hrun|]).
  - discriminate.
  - by intros d [= <-].
Qed.

(** C6 (amended): for every record with the keys rg, pl, pu and sample the
    read-group string is [@RG\tID:<rg>\tPL:<pl>\tPU:<pu>\tSM:<sample>], each
    value through [str] and unchecked; the identifier is the [rg] key, the
    lane has no part in it; [align_bam] hands the string, quoted, to the
    alignment stage. *)
Theorem rg_info_from_rg_field (names : gmap string pyval) (rg pl pu sample : pyval) :
  names !! "rg" = Some rg → names !! "pl" = Some pl →
  names !! "pu" = Some pu → names !! "sample" = Some sample →
  let rg_info := "@RG\tID:" +:+ str rg +:+ "\tPL:" +:+ str pl +:+ "\tPU:" +:+ str pu
                 +:+ "\tSM:" +:+ str sample in
  get_rg_info names = inr rg_info
  ∧ (∀ lane, get_rg_info (<["lane" := lane]> names) = inr rg_info)
  ∧ (∀ in_bam ref_file align_dir config extra_novo_args tx_out_file,
       align_bam_cmd get_program curdir_tmpdir in_bam ref_file names align_dir config
         extra_novo_args tx_out_file
       = inr (pipe
           [ get_program "novosort" config +:+ " -c "
               +:+ str (get (algorithm config) "num_cores" (PyInt 1)) +:+ " -m "
               +:+ str (get (get_resources "novoalignCS" config) "memory" (PyStr "4G"))
               +:+ " --compression 0 " +:+ " -n -t " +:+ curdir_tmpdir (Some align_dir)
               +:+ " " +:+ in_bam +:+ " ";
             get_program "novoalignCS" config +:+ " -o SAM '" +:+ rg_info +:+ "' -d "
               +:+ ref_file +:+ " -f /dev/stdin " +:+ "  -F "
               +:+ str (get (algorithm config) "file_format" (PyStr "BAMPE")) +:+ " -c "
               +:+ str (get (algorithm config) "num_cores" (PyInt 1)) +:+ " "
               +:+ extra_novo_args +:+ " ";
             get_program "samtools" config +:+ " view -b -S -u - ";
             get_program "novosort" config +:+ " -c "
               +:+ str (get (algorithm config) "num_cores" (PyInt 1)) +:+ " -m "
               +:+ str (get (get_resources "novoalignCS" config) "memory" (PyStr "4G"))
               +:+ " -t " +:+ curdir_tmpdir (Some align_dir) +:+ " " +:+ "  -o "
               +:+ tx_out_file +:+ " /dev/stdin" ])).
Proof.
  intros Hrg Hpl Hpu Hs rg_info.
  pose proof (get_rg_info_fields names rg pl pu sample Hrg Hpl Hpu Hs) as H.
  split; [exact H|]. split.
  - intros lane. apply get_rg_info_fields; by rewrite lookup_insert_ne.
  - intros. unfold align_bam_cmd. rewrite H. reflexivity.
Qed.

(** C10: the arguments [align_bam] asks for carry no quality flags, they
    are the multiple-mapper flags followed by the extra arguments; setting
    [algorithm.quality_format] to any value changes neither them nor the
    run of [align_bam]; the [-F] of the alignment stage is the container
    format [algorithm.file_format], [BAMPE] when absent. *)
Theorem align_bam_ignores_quality_format (config : Config) (v : pyval) :
  let config' := {| algorithm := <["quality_format" := v]> (algorithm config);
                    resources := resources config |} in
  qual_flags config' false = inr []
  ∧ _novoalignCS_args_from_config config' false
    = _novoalignCS_args_from_config config false
  ∧ (∀ e, extra_args config = inr e →
       _novoalignCS_args_from_config config false = inr (multi_flags config ++ e)%list)
  ∧ ((∀ name, get_program name config' = get_program name config) →
     ∀ in_bam ref_file names align_dir w,
       run_bam in_bam ref_file names align_dir config' w
       = run_bam in_bam ref_file names align_dir config w)
  ∧ (algorithm config !! "file_format" = None →
     get (algorithm config') "file_format" (PyStr "BAMPE") = PyStr "BAMPE").
Proof.
  intros config'.
  assert (∀ k d, k ≠ "quality_format" →
            get (algorithm config') k d = get (algorithm config) k d) as Hget.
  { intros k d Hk. unfold get. simpl. by rewrite lookup_insert_ne. }
  assert (_novoalignCS_args_from_config config' false
          = _novoalignCS_args_from_config config false) as Hargs.
  { unfold _novoalignCS_args_from_config, multi_flags, multi_flag, qual_flags.
    by rewrite Hget. }
  split; [reflexivity|]. split; [exact Hargs|]. split; [|split].
  - intros e He. by apply (args_from_config_shape config false []).
  - intros Hprog in_bam ref_file names align_dir w.
    unfold align_bam, align_bam_cmd. rewrite Hargs, !Hprog, !Hget by done.
    reflexivity.
  - intros Hff. rewrite Hget by done. unfold get. by rewrite Hff.
Qed.

End PipelineProperties.

(** ** Runs in a concrete world *)

Example align_bam_succeeds :
  let r := align_bam prog tmpdir tx sh_ok any_size "in.bam" "/g/ref.fa" names_rgL1
             "/w/align/S1" (cfg [] []) w0 in
  fst r = inr "/w/align/S1/L1-sort.bam"
  ∧ files (snd r) !! "/w/align/S1/L1-sort.bam" = Some 10%N
  ∧ files (snd r) !! tx "/w/align/S1/L1-sort.bam" = None
  ∧ spawned (snd r)
    = ["novosort -c 1 -m 4G --compression 0  -n -t /tmp/wd in.bam | novoalignCS -o SAM '@RG\tID:L1\tPL:illumina\tPU:unit1\tSM:S1' -d /g/ref.fa -f /dev/stdin   -F BAMPE -c 1 -r None -o FullNW -k | samtools view -b -S -u - | novosort -c 1 -m 4G -t /tmp/wd   -o /tx/w/align/S1/L1-sort.bam /dev/stdin"].
Proof. vm_compute. repeat split. Qed.

Example align_bam_empty_output :
  let r := align_bam prog tmpdir tx sh_empty any_size "in.bam" "/g/ref.fa" names_rgL1
             "/w/align/S1" (cfg [] []) w0 in
  run_failure (raised r) = true ∧ files (snd r) = files w0.
Proof. vm_compute. repeat split. Qed.

Example align_succeeds :
  let r := align prog tx sh_ok "r1.fq" None "/g/ref.fa" "L1" "/w/align/S1" (cfg [] [])
             None (Some names_rgL1) w0 in
  fst r = inr "/w/align/S1/L1.sam"
  ∧ spawned (snd r)
    = ["novoalignCS -F BFAST -r None -o FullNW -k -o SAM '@RG\tID:L1' -d /g/ref.fa -f r1.fq > /tx/w/align/S1/L1.sam"].
Proof. vm_compute. repeat split. Qed.

Lemma failed_run_leaves_final_path_absent_witness :
  let r1 := align_bam prog tmpdir tx sh_fail any_size "in.bam" "/g/ref.fa" names_rgL1
              "/w/align/S1" (cfg [] []) w0 in
  let r2 := align_pipe prog tx sh_empty any_size no_combine no_split "r1.fq" (Some "r2.fq")
              "/g/ref.fa" names_rgL1 "/w/align/S1" data0 w0 in
  let r3 := align prog tx sh_fail "r1.fq" None "/g/ref.fa" "L1" "/w/align/S1" (cfg [] [])
              None (Some names_rgL1) w0 in
  (files (snd r1) !! "/w/align/S1/L1-sort.bam" = None
   ∧ files (snd r1) !! tx "/w/align/S1/L1-sort.bam" = None)
  ∧ (files (snd r2) !! "/w/align/S1/L1-sort.bam" = None
     ∧ files (snd r2) !! tx "/w/align/S1/L1-sort.bam" = None)
  ∧ (files (snd r3) !! "/w/align/S1/L1.sam" = None
     ∧ files (snd r3) !! tx "/w/align/S1/L1.sam" = None).
Proof.
  intros r1 r2 r3.
  pose proof (failed_run_leaves_final_path_absent prog tmpdir tx sh_fail any_size
                no_combine no_split) as (Hbam & _ & Halign).
  pose proof (failed_run_leaves_final_path_absent prog tmpdir tx sh_empty any_size
                no_combine no_split) as (_ & Hpipe & _).
  split; [|split].
  - apply (Hbam "in.bam" "/g/ref.fa" names_rgL1 "/w/align/S1" (cfg [] []) w0
             (raised r1) (snd r1) "/w/align/S1/L1-sort.bam");
      vm_compute; reflexivity.
  - destruct (Hpipe "r1.fq" (Some "r2.fq") "/g/ref.fa" names_rgL1 "/w/align/S1" data0 w0
                (raised r2) (snd r2) "/w/align/S1/L1-sort.bam" None data0 "r1.fq" "r2.fq")
      as (H1 & H2 & _); [vm_compute; reflexivity ..|].
    split; assumption.
  - apply (Halign "r1.fq" None "/g/ref.fa" "L1" "/w/align/S1" (cfg [] []) None
             (Some names_rgL1) w0 (raised r3) (snd r3));
      vm_compute; reflexivity.
Defined.

Lemma existing_output_skips_pipeline_witness :
  align_bam prog tmpdir tx sh_ok any_size "in.bam" "/g/ref.fa" names_rgL1
    "/w/align/S1" (cfg [] []) w_done
  = (inr "/w/align/S1/L1-sort.bam", w_done)
  ∧ align_pipe prog tx sh_ok any_size no_combine no_split "r1.fq" None
      "/g/ref.fa" names_rgL1 "/w/align/S1" data0 w_done
    = (inr (set_work_bam data0 "/w/align/S1/L1-sort.bam"), w_done)
  ∧ align prog tx sh_ok "r1.fq" None "/g/ref.fa" "L1" "/w/align/S1" (cfg [] [])
      None (Some names_rgL1) w_done
    = (inr "/w/align/S1/L1.sam", w_done).
Proof.
  pose proof (existing_output_skips_pipeline prog tmpdir tx sh_ok any_size
                no_combine no_split) as (Hbam & Hpipe & Halign).
  split; [|split].
  - apply (proj2 (Hbam "in.bam" "/g/ref.fa" names_rgL1 "/w/align/S1" (cfg [] []) w_done
                    "/w/align/S1/L1-sort.bam" eq_refl eq_refl)
                 ["-r"; "None"; "-o"; "FullNW"; "-k"]).
    vm_compute. reflexivity.
  - apply (proj2 (Hpipe "r1.fq" None "/g/ref.fa" names_rgL1 "/w/align/S1" data0 w_done
                    "/w/align/S1/L1-sort.bam" None data0 "r1.fq" EmptyString
                    eq_refl (or_introl eq_refl))
                 ["-F"; "BFAST"; "-r"; "None"; "-o"; "FullNW"; "-k"]
                 "@RG\tID:L1\tPL:illumina\tPU:unit1\tSM:S1");
      vm_compute; reflexivity.
  - apply (Halign "r1.fq" None "/g/ref.fa" "L1" "/w/align/S1" (cfg [] []) None
             (Some names_rgL1) w_done).
    vm_compute. reflexivity.
Defined.

(** C2, as the claim words it, fails: with the sorted BAM already on disk,
    [align_pipe] on the sample of the end-to-end scenario, which has no [rg]
    key, raises [KeyError] instead of returning the record, because the
    read-group string is rendered before the check; likewise [align_bam]
    raises [TypeError] when [options] is a number, because the arguments
    are rendered before the check.  Nothing is spawned in either case. *)
Lemma existing_output_is_not_always_returned :
  os_path_exists (files w_done) "/w/align/S1/L1-sort.bam" = true
  ∧ sort_bam_path "/w/align/S1" names_L1 = inr "/w/align/S1/L1-sort.bam"
  ∧ align_pipe prog tx sh_ok any_size no_combine no_split "r1.fq" None
      "/g/ref.fa" names_L1 "/w/align/S1" data0 w_done
    = (inl (KeyError "rg"), w_done)
  ∧ align_bam prog tmpdir tx sh_ok any_size "in.bam" "/g/ref.fa" names_rgL1
      "/w/align/S1" (cfg [] [("options", PyInt 3)]) w_done
    = (inl (TypeError "object is not iterable"), w_done).
Proof. repeat split; vm_compute; reflexivity. Qed.

(** C4, as the claim words it, fails: for the paired FASTQ input of the
    end-to-end scenario under the default configuration the command spawned
    has three stages, not two: [samtools view] stands between the alignment
    and the sort. *)
Lemma align_pipe_not_two_stages :
  let r := align_pipe prog tx sh_ok any_size no_combine no_split "r1.fq" (Some "r2.fq")
             "/g/ref.fa" names_rgL1 "/w/align/S1" data0 w0 in
  let cmd := "novoalignCS -o SAM '@RG\tID:L1\tPL:illumina\tPU:unit1\tSM:S1' -d /g/ref.fa -f r1.fq r2.fq   -c 1 -F BFAST -r None -o FullNW -k | samtools view -b -S -u - | samtools sort -@ 1 -m 1G - /tx/w/align/S1/L1-sort" in
  spawned (snd r) = [cmd]
  ∧ stage_count cmd = 3%nat
  ∧ stage_count cmd ≠ 2%nat
  ∧ length (align_pipe_stages "novoalignCS" "samtools"
              "@RG\tID:L1\tPL:illumina\tPU:unit1\tSM:S1" "/g/ref.fa" "r1.fq" "r2.fq" "1" "1G"
              "-F BFAST -r None -o FullNW -k" "/tx/w/align/S1/L1-sort") ≠ 2%nat.
Proof. vm_compute. repeat split; congruence. Qed.

Lemma align_pipe_three_stages_witness :
  let r := align_pipe prog tx sh_ok any_size no_combine no_split "r1.fq" (Some "r2.fq")
             "/g/ref.fa" names_rgL1 "/w/align/S1" data0 w0 in
  spawned (snd r)
  = [pipe [ "novoalignCS -o SAM '@RG\tID:L1\tPL:illumina\tPU:unit1\tSM:S1' -d /g/ref.fa -f r1.fq r2.fq   -c 1 -F BFAST -r None -o FullNW -k ";
            "samtools view -b -S -u - ";
            "samtools sort -@ 1 -m 1G - /tx/w/align/S1/L1-sort" ]]
  ∧ (∀ d, fst r = inr d → work_bam d = Some "/w/align/S1/L1-sort.bam").
Proof.
  apply (align_pipe_three_stages prog tx sh_ok any_size no_combine no_split
           "r1.fq" (Some "r2.fq") "/g/ref.fa" names_rgL1 "/w/align/S1" data0
           (PyStr "L1") ["-F"; "BFAST"; "-r"; "None"; "-o"; "FullNW"; "-k"]
           "@RG\tID:L1\tPL:illumina\tPU:unit1\tSM:S1" w0);
    vm_compute; reflexivity.
Defined.

Example align_pipe_scenario_sample_raises :
  fst (align_pipe prog tx sh_ok any_size no_combine no_split "r1.fq" (Some "r2.fq")
         "/g/ref.fa" names_L1 "/w/align/S1" data0 w0)
  = inl (KeyError "rg").
Proof. vm_compute. reflexivity. Qed.

Lemma rg_info_from_rg_field_witness :
  get_rg_info names_rg7 = inr "@RG\tID:7\tPL:illumina\tPU:unit1\tSM:S1".
Proof.
  apply (rg_info_from_rg_field prog tmpdir names_rg7 (PyInt 7) (PyStr "illumina")
           (PyStr "unit1") (PyStr "S1"));
    vm_compute; reflexivity.
Defined.

Lemma align_bam_ignores_quality_format_witness :
  align_bam prog tmpdir tx sh_ok any_size "in.bam" "/g/ref.fa" names_rgL1 "/w/align/S1"
    (cfg [("quality_format", PyStr "solid")] []) w0
  = align_bam prog tmpdir tx sh_ok any_size "in.bam" "/g/ref.fa" names_rgL1 "/w/align/S1"
      (cfg [] []) w0.
Proof.
  pose proof (align_bam_ignores_quality_format prog tmpdir tx sh_ok any_size
                (cfg [] []) (PyStr "solid")) as (_ & _ & _ & H & _).
  specialize (H (λ name, eq_refl) "in.bam" "/g/ref.fa" names_rgL1 "/w/align/S1" w0).
  etransitivity; [|exact H]. vm_compute. reflexivity.
Defined.

(** * Further properties of the code *)

(** ** Rendering the arguments: errors and composition *)



(** X2: [resources.novoalignCS.options] has to be a list: a string is taken
    apart into its characters, one argument each, and a number or a boolean
    raises [TypeError], also in the rendering [align_bam] asks for. *)
Theorem options_must_be_a_list (config : Config) (v : pyval) :
  get_resources "novoalignCS" config !! "options" = Some v →
  match v with
  | PyStr s =>
      extra_args config
      = inr (map (λ c, String c EmptyString) (list_ascii_of_string s))
  | PyInt _ | PyBool _ =>
      extra_args config = inl (TypeError "object is not iterable")
      ∧ _novoalignCS_args_from_config config false
        = inl (TypeError "object is not iterable")
  | PyList l => extra_args config = inr (map str l)
  | PyNone => extra_args config = inr default_extra_args
  end.
Proof.
  intros Hv. unfold _novoalignCS_args_from_config, extra_args, get. rewrite Hv.
  destruct v; simpl; try reflexivity; try (split; reflexivity).
  f_equal. rewrite map_map. reflexivity.
Qed.

Lemma options_must_be_a_list_witness :
  extra_args (cfg [] [("options", PyStr "-a -b")]) = inr ["-"; "a"; " "; "-"; "b"]
  ∧ extra_args (cfg [] [("options", PyInt 3)]) = inl (TypeError "object is not iterable").
Proof.
  split.
  - exact (options_must_be_a_list (cfg [] [("options", PyStr "-a -b")]) (PyStr "-a -b")
             eq_refl).
  - exact (proj1 (options_must_be_a_list (cfg [] [("options", PyInt 3)]) (PyInt 3)
                    eq_refl)).
Defined.

(** X3: [get_rg_info] raises exactly when one of the keys rg, pl, pu, sample
    is missing, and the [KeyError] names the first missing key in that
    order. *)
Theorem rg_info_raises_on_first_missing_key (names : gmap string pyval) :
  (∀ e, get_rg_info names = inl e →
     ∃ pre k post, rg_keys = (pre ++ k :: post)%list ∧ e = KeyError k
       ∧ names !! k = None ∧ Forall (λ x, is_Some (names !! x)) pre)
  ∧ (∀ k, k ∈ rg_keys → names !! k = None → ∃ e, get_rg_info names = inl e).
Proof.
  unfold get_rg_info, getitem, rg_keys. split.
  - intros e.
    destruct (names !! "rg") as [rg|] eqn:Hrg; simpl.
    2:{ intros [= <-]. by exists [], "rg", ["pl"; "pu"; "sample"]. }
    destruct (names !! "pl") as [pl|] eqn:Hpl; simpl.
    2:{ intros [= <-]. exists ["rg"], "pl", ["pu"; "sample"].
        repeat split; [done|]. repeat constructor. by rewrite Hrg. }
    destruct (names !! "pu") as [pu|] eqn:Hpu; simpl.
    2:{ intros [= <-]. exists ["rg"; "pl"], "pu", ["sample"].
        repeat split; [done|]. repeat constructor; [by rewrite Hrg | by rewrite Hpl]. }
    destruct (names !! "sample") as [sample|] eqn:Hs; simpl; [discriminate|].
    intros [= <-]. exists ["rg"; "pl"; "pu"], "sample", [].
    repeat split; [done|].
    repeat constructor; [by rewrite Hrg | by rewrite Hpl | by rewrite Hpu].
  - intros k Hk Hnone.
    repeat (apply elem_of_cons in Hk as [->|Hk]); [..|by apply elem_of_nil in Hk];
      rewrite ?Hnone; repeat (case_match; simpl; eauto).
Qed.

Lemma rg_info_raises_on_first_missing_key_witness :
  ∃ pre k post, rg_keys = (pre ++ k :: post)%list
    ∧ KeyError "pu" = KeyError k
    ∧ (<["rg" := PyStr "L1"]> (delete "pu" names_L1) : gmap string pyval) !! k = None
    ∧ Forall (λ x, is_Some ((<["rg" := PyStr "L1"]> (delete "pu" names_L1)
                               : gmap string pyval) !! x)) pre.
Proof.
  apply (proj1 (rg_info_raises_on_first_missing_key
                  (<["rg" := PyStr "L1"]> (delete "pu" names_L1)))).
  vm_compute. reflexivity.
Defined.

(** *** Words survive the joining into a command line *)

Lemma has_space_of_list (l : list ascii) :
  has_space (string_of_list_ascii l) = existsb is_space l.
Proof. induction l as [|a l IH]; simpl; [reflexivity | by rewrite IH]. Qed.

Lemma existsb_rev {A} (f : A → bool) (l : list A) : existsb f (rev l) = existsb f l.
Proof.
  induction l as [|a l IH]; simpl; [reflexivity|].
  rewrite existsb_app, IH. simpl. rewrite orb_false_r. apply orb_comm.
Qed.

Lemma flush_words (cur : list ascii) (acc : list string) :
  existsb is_space cur = false → Forall is_word acc → Forall is_word (flush cur acc).
Proof.
  intros Hcur Hacc. destruct cur as [|c cur]; [exact Hacc|]. unfold flush.
  constructor; [|exact Hacc]. split.
  - intros H. apply (f_equal list_ascii_of_string) in H.
    rewrite list_ascii_of_string_of_list_ascii in H.
    apply (f_equal (@length ascii)) in H. rewrite length_rev in H. discriminate H.
  - by rewrite has_space_of_list, existsb_rev.
Qed.

Lemma split_go_words (s : string) (cur : list ascii) :
  existsb is_space cur = false → Forall is_word (split_go cur s).
Proof.
  revert cur. induction s as [|c s IH]; intros cur Hcur; simpl.
  - apply flush_words; [exact Hcur | constructor].
  - destruct (is_space c) eqn:Hc.
    + apply flush_words; [exact Hcur | by apply IH].
    + apply IH. simpl. by rewrite Hc.
Qed.

(** the words [split] gives are not empty and hold no white space *)
Lemma split_words (s : string) : Forall is_word (split s).
Proof. by apply split_go_words. Qed.

Lemma append_cons (c : ascii) (s r : string) : String c s +:+ r = String c (s +:+ r).
Proof. reflexivity. Qed.

Lemma split_go_word_prefix (w r : string) (cur : list ascii) :
  has_space w = false →
  split_go cur (w +:+ r) = split_go (rev (list_ascii_of_string w) ++ cur) r.
Proof.
  revert cur. induction w as [|c w IH]; intros cur Hw.
  - reflexivity.
  - simpl in Hw. apply orb_false_iff in Hw as [Hc Hw].
    rewrite append_cons. simpl. rewrite Hc, (IH _ Hw).
    by rewrite <- app_assoc.
Qed.

Lemma flush_word (w : string) (acc : list string) :
  w ≠ EmptyString → flush (rev (list_ascii_of_string w)) acc = w :: acc.
Proof.
  intros Hw. unfold flush.
  destruct (rev (list_ascii_of_string w)) as [|a l] eqn:E.
  - destruct w; [done|]. apply (f_equal (@length ascii)) in E.
    rewrite length_rev in E. discriminate E.
  - by rewrite <- E, rev_involutive, string_of_list_ascii_of_string.
Qed.

Lemma append_empty_r (s : string) : s +:+ EmptyString = s.
Proof.
  induction s as [|c s IH]; [reflexivity|].
  rewrite append_cons. by f_equal.
Qed.

Lemma split_join_words (ws : list string) :
  Forall is_word ws → split (join_args ws) = ws.
Proof.
  unfold split, join_args. induction 1 as [|w ws [Hne Hsp] Hws IH]; [reflexivity|].
  destruct ws as [|w' ws].
  - simpl. rewrite <- (append_empty_r w) at 1.
    rewrite split_go_word_prefix, app_nil_r by done. simpl. by apply flush_word.
  - change (String.concat " " (w :: w' :: ws))
      with (w +:+ String " " (String.concat " " (w' :: ws))).
    rewrite split_go_word_prefix, app_nil_r by done.
    change (split_go ?c (String " " ?r)) with (flush c (split_go [] r)).
    rewrite IH. by apply flush_word.
Qed.

(** X4: the multiple-mapper flags are [-r] followed by words free of white
    space, so joining them with blanks and cutting the line at white space
    again gives back the same arguments, whatever the policy string. *)
Theorem multi_flags_survive_joining (config : Config) :
  Forall is_word (multi_flags config)
  ∧ split (join_args (multi_flags config)) = multi_flags config.
Proof.
  assert (Forall is_word (multi_flags config)) as H.
  { unfold multi_flags. constructor; [by split | apply split_words]. }
  split; [exact H | by apply split_join_words].
Qed.

(** ** Index remapping: what the caller gets *)

Lemma replace_go_absent (old new s : string) :
  old ≠ EmptyString → occurs old s = false → replace_go old new 0 s = s.
Proof.
  intros Hold. induction s as [|c s IH]; simpl.
  - intros _. by destruct old.
  - intros H. apply orb_false_iff in H as [Hstart Hocc].
    change (startswith old (String c s) = false) in Hstart.
    destruct old as [|a old']; [done|]. simpl in Hstart. simpl.
    rewrite Hstart. by rewrite IH.
Qed.

Lemma remap_result_is_candidate (fs : gmap string N) (ref_file : string) :
  remap_index_fn fs ref_file ∈ checks ref_file.
Proof.
  unfold remap_index_fn. pose proof (first_existing_spec fs (checks ref_file)) as H.
  destruct (first_existing fs (checks ref_file)) as [c|].
  - destruct H as (pre & post & -> & _). apply elem_of_app. right. apply elem_of_cons. by left.
  - simpl. apply elem_of_cons. by left.
Qed.

(** X5: [remap_index_fn] answers with one of its four candidates, and its
    answer exists on disk exactly when some candidate does: the caller has
    to deal with a missing index only when none of the four is there. *)
Theorem remap_finds_index_iff_some_candidate_exists
  (fs : gmap string N) (ref_file : string) :
  remap_index_fn fs ref_file ∈ checks ref_file
  ∧ (os_path_exists fs (remap_index_fn fs ref_file) = true
     ↔ Exists (λ c, os_path_exists fs c = true) (checks ref_file)).
Proof.
  split; [apply remap_result_is_candidate|]. split.
  - intros H. apply Exists_exists. eexists. split; [apply remap_result_is_candidate | exact H].
  - intros H. unfold remap_index_fn.
    pose proof (first_existing_spec fs (checks ref_file)) as Hspec.
    destruct (first_existing fs (checks ref_file)) as [c|].
    + by destruct Hspec as (pre & post & _ & Hc & _).
    + apply Exists_exists in H as (c & Hin & Hc).
      rewrite Forall_forall in Hspec. rewrite (Hspec c Hin) in Hc. discriminate Hc.
Qed.

(** X6: for a reference that is not under a [/seq/] directory, with none of
    the index files on disk, the answer is the reference path without its
    extension: a path that names no index at all. *)
Theorem remap_guess_without_seq_directory (fs : gmap string N) (ref_file : string) :
  occurs "/seq/" (fst (splitext ref_file)) = false →
  Forall (λ c, os_path_exists fs c = false) (checks ref_file) →
  remap_index_fn fs ref_file = fst (splitext ref_file).
Proof.
  intros Hocc Hnone. unfold remap_index_fn.
  pose proof (first_existing_spec fs (checks ref_file)) as Hspec.
  destruct (first_existing fs (checks ref_file)) as [c|].
  - destruct Hspec as (pre & post & E & Hc & _).
    rewrite Forall_forall in Hnone. rewrite Hnone in Hc; [discriminate Hc|].
    rewrite E. apply elem_of_app. right. apply elem_of_cons. by left.
  - simpl. unfold replace. by apply replace_go_absent.
Qed.

Lemma remap_guess_without_seq_directory_witness :
  remap_index_fn ∅ "/genomes/hg19.fa" = "/genomes/hg19".
Proof.
  apply (remap_guess_without_seq_directory ∅ "/genomes/hg19.fa").
  - vm_compute. reflexivity.
  - repeat constructor.
Defined.

(** ** The table of aligners: arity, metadata and plain FASTQ dispatch *)

Lemma NgsTool_arity (args : list obj) :
  (length args = 4%nat → ∃ t, NgsTool args = inr t)
  ∧ (length args ≠ 4%nat → ∃ msg, NgsTool args = inl (TypeError msg)).
Proof.
  unfold NgsTool, namedtuple_new. split; intros H.
  - rewrite H. simpl. by eexists.
  - destruct (Nat.eqb_spec (length args) (length NgsTool_fields)) as [E|E]; [done|].
    by eexists.
Qed.

Lemma dict_display_builds (entries : list (string * list obj))
  (acc : gmap string namedtuple) :
  Forall four_arguments entries → table_of_NgsTool acc →
  ∃ tools, dict_display acc entries = inr tools
    ∧ (∀ k, is_Some (tools !! k) ↔ is_Some (acc !! k) ∨ k ∈ entries.*1)
    ∧ table_of_NgsTool tools.
Proof.
  intros Hall. revert acc. induction Hall as [|[k args] entries Hk Hall IH]; intros acc Hacc.
  - exists acc. split; [reflexivity|]. split; [|exact Hacc].
    intros k. rewrite fmap_nil, elem_of_nil. tauto.
  - destruct (proj1 (NgsTool_arity args) Hk) as [t Ht]. simpl. rewrite Ht. simpl.
    destruct (IH (<[k := t]> acc)) as (tools & Hd & Hdom & Hwf).
    { intros k' t' Hl. destruct (decide (k = k')) as [->|Hne].
      - rewrite lookup_insert_eq in Hl. injection Hl as <-. by exists args.
      - rewrite lookup_insert_ne in Hl by done. by eapply Hacc. }
    exists tools. split; [exact Hd|]. split; [|exact Hwf].
    intros k'. rewrite Hdom, elem_of_cons.
    destruct (decide (k = k')) as [->|Hne].
    + rewrite lookup_insert_eq. split; [intros _; right; by left | intros _; left; by eexists].
    + rewrite lookup_insert_ne by done. split; [tauto|]. intros [?|[?|?]]; [tauto|congruence|tauto].
Qed.

Lemma dict_display_raises (entries : list (string * list obj))
  (acc : gmap string namedtuple) :
  Exists (λ entry, ¬ four_arguments entry) entries →
  ∃ msg, dict_display acc entries = inl (TypeError msg).
Proof.
  revert acc. induction entries as [|[k args] entries IH]; intros acc H.
  - by apply Exists_nil in H.
  - simpl. destruct (decide (length args = 4%nat)) as [E|E].
    + destruct (proj1 (NgsTool_arity args) E) as [t ->]. simpl. apply IH.
      apply Exists_cons in H as [H|H]; [done | exact H].
    + destruct (proj2 (NgsTool_arity args) E) as [msg ->]. by exists msg.
Qed.

(** X7: a display of [NgsTool] calls builds a table exactly when each call
    has four arguments: then every key of the display is bound to a
    four-field tuple and nothing else is; one call of another arity and
    the display raises [TypeError]. *)
Theorem table_display_needs_four_arguments (entries : list (string * list obj)) :
  (Forall four_arguments entries →
     ∃ tools, dict_display ∅ entries = inr tools
       ∧ (∀ k, is_Some (tools !! k) ↔ k ∈ entries.*1)
       ∧ table_of_NgsTool tools)
  ∧ (Exists (λ entry, ¬ four_arguments entry) entries →
     ∃ msg, dict_display ∅ entries = inl (TypeError msg)).
Proof.
  split.
  - intros H. destruct (dict_display_builds entries ∅ H) as (tools & Hd & Hdom & Hwf).
    { intros k t Hl. by rewrite lookup_empty in Hl. }
    exists tools. split; [exact Hd|]. split; [|exact Hwf].
    intros k. rewrite Hdom, lookup_empty. split; [|tauto].
    intros [[x Hx]|?]; [discriminate Hx | done].
  - apply dict_display_raises.
Qed.

Lemma table_display_needs_four_arguments_witness :
  (∃ tools, dict_display ∅ (take 5 TOOLS_entries) = inr tools
     ∧ (∀ k, is_Some (tools !! k) ↔ k ∈ (take 5 TOOLS_entries).*1)
     ∧ table_of_NgsTool tools)
  ∧ ∃ msg, dict_display ∅ TOOLS_entries = inl (TypeError msg).
Proof.
  split.
  - apply (proj1 (table_display_needs_four_arguments (take 5 TOOLS_entries))).
    repeat constructor.
  - apply (proj2 (table_display_needs_four_arguments TOOLS_entries)).
    do 5 apply Exists_cons_tl. apply Exists_cons_hd. unfold four_arguments. simpl. lia.
Defined.

Lemma NgsTool_bam_align_fn (args : list obj) (t : namedtuple) :
  NgsTool args = inr t → ∃ f, getattr t "bam_align_fn" = inr f.
Proof.
  intros H. apply NgsTool_four_fields in H as [Hlen ->].
  destruct args as [|a1 [|a2 [|a3 [|a4 [|a5 args]]]]]; try discriminate Hlen.
  by exists a2.
Qed.

Lemma bam_keys_spec (items : list (string * namedtuple)) :
  Forall (λ kv, ∃ args, NgsTool args = inr kv.2) items →
  ∃ l, bam_keys items = inr l
    ∧ ∀ k, k ∈ l ↔ ∃ v f, (k, v) ∈ items ∧ getattr v "bam_align_fn" = inr f
                          ∧ obj_is_None f = false.
Proof.
  induction 1 as [|[k v] items [args Hv] Hall (l & Hl & IH)].
  - exists []. split; [reflexivity|]. intros k. rewrite elem_of_nil.
    split; [done|]. intros (v & f & Hin & _). by apply elem_of_nil in Hin.
  - destruct (NgsTool_bam_align_fn _ _ Hv) as [f Hf]. simpl in *.
    rewrite Hf, Hl. simpl.
    exists (if obj_is_None f then l else k :: l). split; [reflexivity|].
    intros k'. split.
    + intros Hin. destruct (obj_is_None f) eqn:Hn.
      * apply IH in Hin as (v' & f' & Hin & H1 & H2).
        exists v', f'. split; [by apply elem_of_cons; right | done].
      * apply elem_of_cons in Hin as [->|Hin].
        -- exists v, f. split; [by apply elem_of_cons; left | done].
        -- apply IH in Hin as (v' & f' & Hin & H1 & H2).
           exists v', f'. split; [by apply elem_of_cons; right | done].
    + intros (v' & f' & Hin & H1 & H2). apply elem_of_cons in Hin as [[= -> ->]|Hin].
      * rewrite Hf in H1. injection H1 as ->. rewrite H2. apply elem_of_cons. by left.
      * assert (k' ∈ l) by (apply IH; eauto).
        destruct (obj_is_None f); [done | by apply elem_of_cons; right].
Qed.

(** X8: on a table of four-field tuples the metadata is consistent with
    the dispatch: a tool is listed under [support_bam] exactly when
    [_align_from_bam] finds a handler for it. *)
Theorem support_bam_matches_bam_dispatch (tools : gmap string namedtuple) :
  table_of_NgsTool tools →
  ∃ l, support_bam tools = inr l
    ∧ ∀ aligner, aligner ∈ l ↔ ∃ h, _align_from_bam tools aligner PyNone = inr h.
Proof.
  intros Hwf. destruct (bam_keys_spec (map_to_list tools)) as (l & Hl & Hspec).
  { apply Forall_forall. intros [k v] Hin. apply elem_of_map_to_list in Hin.
    by eapply Hwf. }
  exists l. split; [exact Hl|]. intros aligner. rewrite Hspec.
  unfold _align_from_bam, getitem. simpl. split.
  - intros (v & f & Hin & Hf & Hn). apply elem_of_map_to_list in Hin.
    rewrite Hin. simpl. rewrite Hf. simpl. rewrite Hn. by exists f.
  - intros [h Hh]. destruct (tools !! aligner) as [t|] eqn:Ht; [|discriminate Hh].
    simpl in Hh. destruct (getattr t "bam_align_fn") as [e|f] eqn:Hf; [discriminate Hh|].
    simpl in Hh. destruct (obj_is_None f) eqn:Hn; [discriminate Hh|].
    exists t, f. split; [by apply elem_of_map_to_list | done].
Qed.

Lemma support_bam_matches_bam_dispatch_witness :
  ∃ l, support_bam {[ "bwa" := zip NgsTool_fields
                                 [Ref "bwa.align_pipe"; Ref "bwa.align_bam";
                                  Ref "bwa.galaxy_location_file"; ONone] ]} = inr l
    ∧ ∀ aligner, aligner ∈ l
        ↔ ∃ h, _align_from_bam
                 {[ "bwa" := zip NgsTool_fields
                               [Ref "bwa.align_pipe"; Ref "bwa.align_bam";
                                Ref "bwa.galaxy_location_file"; ONone] ]}
                 aligner PyNone = inr h.
Proof.
  apply support_bam_matches_bam_dispatch.
  intros k t Hl. apply lookup_singleton_Some in Hl as [_ <-].
  by exists [Ref "bwa.align_pipe"; Ref "bwa.align_bam"; Ref "bwa.galaxy_location_file"; ONone].
Defined.

(** X9: whatever the handler does, a record that [_align_from_fastq]
    returns carries [work_bam]; and a tool registered without a plain
    alignment function is not reported as unsupported: calling its [None]
    handler raises [TypeError]. *)
Theorem align_from_fastq_returns_work_bam
  (call : obj → Sample → exn + align_out) (sam_to_bam sort : string → Config → string)
  (tools : gmap string namedtuple) (aligner : string) (data : Sample) :
  (∀ d, _align_from_fastq call sam_to_bam sort tools aligner data = inr d →
     is_Some (work_bam d))
  ∧ (∀ t b g r, tools !! aligner = Some t → NgsTool [ONone; b; g; r] = inr t →
       _align_from_fastq call sam_to_bam sort tools aligner data
       = inl (TypeError "'NoneType' object is not callable")).
Proof.
  unfold _align_from_fastq, getitem. split.
  - intros d. destruct (tools !! aligner) as [t|]; simpl; [|discriminate].
    destruct (getattr t "align_fn") as [e|f]; simpl; [discriminate|].
    destruct (obj_is_None f); [discriminate|].
    destruct (call f data) as [e|[out|out]]; simpl; [discriminate| |].
    + destruct (work_bam out) eqn:E; [|discriminate]. intros [= <-]. by rewrite E.
    + intros [= <-]. simpl. by eexists.
  - intros t b g r Ht Hargs. apply NgsTool_four_fields in Hargs as [_ ->].
    rewrite Ht. reflexivity.
Qed.

Lemma align_from_fastq_returns_work_bam_witness :
  _align_from_fastq (λ _ _, inr (OutPath "/w/L1.sam")) (λ p _, p +:+ ".bam")
    (λ p _, p +:+ "-sort") 
    {[ "samtools" := zip NgsTool_fields [ONone; ONone; OStr BASE_LOCATION_FILE; ONone] ]}
    "samtools" data0
  = inl (TypeError "'NoneType' object is not callable").
Proof.
  apply (proj2 (align_from_fastq_returns_work_bam _ _ _ _ "samtools" data0)
           (zip NgsTool_fields [ONone; ONone; OStr BASE_LOCATION_FILE; ONone])
           ONone (OStr BASE_LOCATION_FILE) ONone); reflexivity.
Defined.

(** ** The guarded pipeline: what a run touches and what it leaves *)

Lemma args_error_not_KeyError (config : Config) (need_quality : bool) (e : exn) (k : string) :
  _novoalignCS_args_from_config config need_quality = inl e → e ≠ KeyError k.
Proof.
  unfold _novoalignCS_args_from_config, qual_flags, extra_args, iter.
  repeat (case_match; simpl in *; try congruence); by intros [= <-].
Qed.

Lemma startswith_append (a b : string) : startswith a (a +:+ b) = true.
Proof.
  induction a as [|c a IH]; [reflexivity|].
  rewrite append_cons. simpl. by rewrite Ascii.eqb_refl.
Qed.

Lemma startswith_append_r (w a x : string) :
  startswith w a = true → startswith w (a +:+ x) = true.
Proof.
  revert a. induction w as [|c w IH]; intros a H; [reflexivity|].
  destruct a as [|d a]; [discriminate H|]. rewrite append_cons. simpl in *.
  apply andb_true_iff in H as [-> H]. by apply IH.
Qed.

Lemma os_path_join_keeps_prefix (w a b : string) :
  startswith "/" b = false → startswith w a = true →
  startswith w (os_path_join a b) = true.
Proof.
  intros Hb Ha. unfold os_path_join. rewrite Hb.
  destruct (_ || _); repeat apply startswith_append_r; exact Ha.
Qed.

Lemma startswith_self (a : string) : startswith a a = true.
Proof. rewrite <- (append_empty_r a) at 2. apply startswith_append. Qed.

(** X10: the paths stay where the caller put them as long as no name
    begins with a slash: the alignment directory begins with the work
    directory, and the sorted BAM path with the alignment directory; a lane
    that begins with a slash makes [os.path.join] drop the directory. *)
Theorem output_paths_stay_under_their_directory :
  (∀ work sample genome_build,
     startswith "/" sample = false →
     (∀ build, genome_build = Some build → startswith "/" build = false) →
     startswith work (align_dir work sample genome_build) = true)
  ∧ (∀ dir (names : gmap string pyval) lane,
       names !! "lane" = Some lane → startswith "/" (str lane) = false →
       ∃ out_file, sort_bam_path dir names = inr out_file
                   ∧ startswith dir out_file = true)
  ∧ (∀ dir (names : gmap string pyval) lane,
       names !! "lane" = Some lane → startswith "/" (str lane) = true →
       sort_bam_path dir names = inr (str lane +:+ "-sort.bam")).
Proof.
  split; [|split].
  - intros work sample genome_build Hs Hb.
    unfold align_dir, align_dir_parts, os_path_join_all. simpl.
    assert (startswith work (os_path_join (os_path_join work "align") sample) = true) as H.
    { apply os_path_join_keeps_prefix; [exact Hs|].
      apply os_path_join_keeps_prefix; [reflexivity | apply startswith_self]. }
    destruct genome_build as [build|]; simpl; [|exact H].
    apply os_path_join_keeps_prefix; [by apply Hb | exact H].
  - intros dir names lane Hl Hs. unfold sort_bam_path, getitem. rewrite Hl. simpl.
    eexists. split; [reflexivity|].
    apply os_path_join_keeps_prefix; [|apply startswith_self].
    destruct (str lane) as [|c l]; [reflexivity|].
    rewrite append_cons. simpl in *. apply andb_false_iff.
    apply andb_false_iff in Hs as [Hs|Hs]; [by left | discriminate Hs].
  - intros dir names lane Hl Hs. unfold sort_bam_path, getitem. rewrite Hl. simpl.
    unfold os_path_join. by rewrite (startswith_append_r "/" (str lane) "-sort.bam" Hs).
Qed.

Lemma output_paths_stay_under_their_directory_witness :
  startswith "/w" (align_dir "/w" "S1" (Some "hg19")) = true
  ∧ (∃ out_file, sort_bam_path "/w/align/S1" names_L1 = inr out_file
                 ∧ startswith "/w/align/S1" out_file = true)
  ∧ sort_bam_path "/w/align/S1" (<["lane" := PyStr "/etc/L1"]> names_L1)
    = inr "/etc/L1-sort.bam".
Proof.
  destruct output_paths_stay_under_their_directory as (H1 & H2 & H3).
  split; [|split].
  - apply H1; [reflexivity|]. intros build [= <-]. reflexivity.
  - apply (H2 "/w/align/S1" names_L1 (PyStr "L1")); reflexivity.
  - apply (H3 "/w/align/S1" (<["lane" := PyStr "/etc/L1"]> names_L1) (PyStr "/etc/L1"));
      reflexivity.
Defined.

Lemma align_cl_renders (get_program : string → Config → string)
  (fastq_file : string) (pair_file : option string) (ref_file : string) (config : Config)
  (extra_args : option (list string)) (rg_name : pyval) (args : list string) :
  _novoalignCS_args_from_config config true = inr args →
  ∃ cl, align_cl get_program fastq_file pair_file ref_file config extra_args rg_name
        = inr cl.
Proof. intros H. unfold align_cl. rewrite H. by eexists. Qed.

Section PipelineFurther.

Variable get_program : string → Config → string.
Variable curdir_tmpdir : option string → string.
Variable tx_path : string → string.
Variable shell : string → gmap string N → outcome.
Variable reasonable_size : N → option N → bool.
Variable setup_combine : string → Sample → string * Sample.
Variable split_namedpipe_cl : string → Sample → string.

Local Abbreviation run_bam :=
  (align_bam get_program curdir_tmpdir tx_path shell reasonable_size).
Local Abbreviation run_pipe :=
  (align_pipe get_program tx_path shell reasonable_size setup_combine split_namedpipe_cl).
Local Abbreviation run_align := (align get_program tx_path shell).







Lemma do_run_nonempty (cmd out : string) (checks : list (World → bool))
  (w w' : World) :
  do_run shell cmd out (file_nonempty out :: checks) w = (inr tt, w') →
  ∃ n, files w' !! out = Some n ∧ (0 < n)%N.
Proof.
  unfold do_run. intros H.
  destruct (negb (exit_ok (shell cmd (files w)))); [discriminate H|].
  match type of H with (if ?c then _ else _) = _ => destruct c eqn:Hchk end;
    [|discriminate H].
  injection H as <-. simpl in Hchk. apply andb_true_iff in Hchk as [Hne _].
  unfold file_nonempty in Hne. simpl in *.
  match type of Hne with match ?x with _ => _ end = _ => destruct x as [n|] end;
    [|discriminate Hne].
  exists n. split; [reflexivity | by apply N.ltb_lt].
Qed.

Lemma promote_lookup_final (tmp final : string) (w : World) (n : N) :
  files w !! tmp = Some n → files (promote tmp final w) !! final = Some n.
Proof. intros H. unfold promote. rewrite H. simpl. apply lookup_insert_eq. Qed.

(** X12: when [align_bam] or [align_pipe] finds no output, runs the pipeline
    and returns, a file that is not empty stands at the output path, and
    exactly one command was spawned for it. *)
Theorem successful_run_leaves_nonempty_output :
  (∀ in_bam ref_file names align_dir config w p w' out_file,
     sort_bam_path align_dir names = inr out_file →
     files w !! out_file = None →
     run_bam in_bam ref_file names align_dir config w = (inr p, w') →
     p = out_file
     ∧ (∃ n, files w' !! out_file = Some n ∧ (0 < n)%N)
     ∧ ∃ cmd, spawned w' = (spawned w ++ [cmd])%list)
  ∧ (∀ fastq_file pair_file ref_file names align_dir data w d w'
       out_file final_file data' fastq_file' pair_file',
     align_pipe_inputs setup_combine split_namedpipe_cl fastq_file pair_file names
       align_dir data = inr (out_file, final_file, data', fastq_file', pair_file') →
     files w !! out_file = None →
     (∀ f, final_file = Some f → files w !! f = None) →
     run_pipe fastq_file pair_file ref_file names align_dir data w = (inr d, w') →
     d = set_work_bam data' out_file
     ∧ (∃ n, files w' !! out_file = Some n ∧ (0 < n)%N)
     ∧ ∃ cmd, spawned w' = (spawned w ++ [cmd])%list).
Proof.
  split.
  - intros in_bam ref_file names align_dir config w p w' out_file Hout Habs H.
    unfold align_bam, seq, lift, file_exists, ret in H. rewrite Hout in H.
    destruct (_novoalignCS_args_from_config config false) as [e0|args]; [discriminate H|].
    rewrite (proj2 (os_path_exists_false _ _) Habs) in H. simpl in H.
    unfold file_transaction, seq, lift in H.
    destruct (align_bam_cmd _ _ _ _ _ _ _ _ _) as [e2|cmd]; [discriminate H|].
    destruct (do_run _ _ _ _ w) as [[e1|[]] w1] eqn:Hrun; [discriminate H|].
    injection H as <- <-. split; [reflexivity|].
    destruct (do_run_nonempty _ _ _ _ _ Hrun) as (n & Hn & Hpos). split.
    + exists n. split; [by apply promote_lookup_final | exact Hpos].
    + exists cmd. rewrite promote_spawned. by eapply do_run_spawned.
  - intros fastq_file pair_file ref_file names align_dir data w d w'
      out_file final_file data' fastq_file' pair_file' Hin Habs Hfinal H.
    unfold align_pipe, seq, lift, file_exists, ret in H. rewrite Hin in H.
    destruct (_novoalignCS_args_from_config (sample_config data') true) as [e0|args];
      [discriminate H|].
    destruct (get_rg_info names) as [e0|rg_info]; [discriminate H|].
    rewrite (proj2 (os_path_exists_false _ _) Habs) in H.
    assert (∃ w1, do_run shell
                (align_pipe_cmd get_program ref_file rg_info fastq_file' pair_file'
                   (sample_config data') (join_args args) (tx_path out_file))
                (tx_path out_file)
                [file_nonempty (tx_path out_file);
                 file_reasonable_size reasonable_size (tx_path out_file) fastq_file'] w
              = (inr tt, w1)
              ∧ w' = promote (tx_path out_file) out_file w1
              ∧ d = set_work_bam data' out_file) as (w1 & Hrun & -> & ->).
    { destruct final_file as [f|]; simpl in H;
        [rewrite (proj2 (os_path_exists_false _ _) (Hfinal f eq_refl)) in H; simpl in H|];
        unfold file_transaction in H;
        destruct (do_run _ _ _ _ w) as [[e1|[]] w1]; try discriminate H;
        injection H as <- <-; by eexists. }
    split; [reflexivity|].
    destruct (do_run_nonempty _ _ _ _ _ Hrun) as (n & Hn & Hpos). split.
    + exists n. split; [by apply promote_lookup_final | exact Hpos].
    + eexists. rewrite promote_spawned. by eapply do_run_spawned.
Qed.

(** X13: [align] asks for no postcondition: once the arguments render and the
    tool exits with status zero it returns the output path, and what stands
    there is whatever the tool left, an empty file or no file at all
    included. *)
Theorem align_has_no_postcondition
  (fastq_file : string) (pair_file : option string) (ref_file out_base align_dir : string)
  (config : Config) (extra_args : option (list string)) (names : option (gmap string pyval))
  (w : World) (args : list string) :
  let out_file := os_path_join align_dir (out_base +:+ ".sam") in
  let r := run_align fastq_file pair_file ref_file out_base align_dir config extra_args
             names w in
  files w !! out_file = None →
  files w !! tx_path out_file = None →
  _novoalignCS_args_from_config config true = inr args →
  ∃ cmd,
    spawned (snd r) = (spawned w ++ [cmd])%list
    ∧ (exit_ok (shell cmd (files w)) = true →
       fst r = inr out_file
       ∧ files (snd r) !! out_file = produced (shell cmd (files w))).
Proof.
  intros out_file r Habs Htmp Hargs. subst r.
  unfold align, seq, lift, file_exists, ret. fold out_file.
  rewrite (proj2 (os_path_exists_false _ _) Habs). simpl.
  destruct (align_cl_renders get_program fastq_file pair_file ref_file config extra_args
              (match names with
               | Some ns => if decide (ns = ∅) then PyNone else get ns "rg" PyNone
               | None => PyNone
               end) args Hargs) as [cl Hcl].
  rewrite Hcl. unfold file_transaction, do_run.
  exists (join_args cl +:+ " > " +:+ tx_path out_file).
  destruct (shell (join_args cl +:+ " > " +:+ tx_path out_file) (files w)) as [ok prod].
  simpl. destruct ok; simpl.
  - split; [by rewrite promote_spawned|]. intros _. split; [reflexivity|].
    unfold promote. simpl. destruct prod as [n|]; simpl.
    + rewrite lookup_insert_eq. simpl. by rewrite lookup_insert_eq.
    + rewrite Htmp. exact Habs.
  - split; [reflexivity | discriminate].
Qed.

(** X14: a BAM realignment whose output is not there yet spawns one pipeline
    of exactly four stages: the sort by name with [novosort], the alignment
    reading the stream, the conversion by [samtools view] and the sort by
    coordinate that writes the temporary output; the thread count and the
    memory (default [4G]) go to both sorts. *)
Theorem align_bam_four_stages
  (in_bam ref_file : string) (names : gmap string pyval) (align_dir : string)
  (config : Config) (lane : pyval) (args : list string) (rg_info : string) (w : World) :
  names !! "lane" = Some lane →
  _novoalignCS_args_from_config config false = inr args →
  get_rg_info names = inr rg_info →
  let out_file := os_path_join align_dir (str lane +:+ "-sort.bam") in
  os_path_exists (files w) out_file = false →
  let num_cores := str (get (algorithm config) "num_cores" (PyInt 1)) in
  let max_mem := str (get (get_resources "novoalignCS" config) "memory" (PyStr "4G")) in
  let file_format := str (get (algorithm config) "file_format" (PyStr "BAMPE")) in
  let work_dir := curdir_tmpdir (Some align_dir) in
  let r := run_bam in_bam ref_file names align_dir config w in
  spawned (snd r)
  = (spawned w ++
     [pipe [ get_program "novosort" config +:+ " -c " +:+ num_cores +:+ " -m " +:+ max_mem
               +:+ " --compression 0 " +:+ " -n -t " +:+ work_dir +:+ " " +:+ in_bam
               +:+ " ";
             get_program "novoalignCS" config +:+ " -o SAM '" +:+ rg_info +:+ "' -d "
               +:+ ref_file +:+ " -f /dev/stdin " +:+ "  -F " +:+ file_format +:+ " -c "
               +:+ num_cores +:+ " " +:+ join_args args +:+ " ";
             get_program "samtools" config +:+ " view -b -S -u - ";
             get_program "novosort" config +:+ " -c " +:+ num_cores +:+ " -m " +:+ max_mem
               +:+ " -t " +:+ work_dir +:+ " " +:+ "  -o " +:+ tx_path out_file
               +:+ " /dev/stdin" ]])%list
  ∧ (∀ p, fst r = inr p → p = out_file).
Proof.
  intros Hlane Hargs Hrg out_file Hex num_cores max_mem file_format work_dir r. subst r.
  unfold align_bam, seq, lift, file_exists, ret, sort_bam_path, getitem.
  rewrite Hlane. simpl. fold out_file. rewrite Hargs, Hex. simpl.
  unfold file_transaction, seq, lift, align_bam_cmd. rewrite Hrg. simpl.
  destruct (do_run _ _ _ _ w) as [[e|[]] w1] eqn:Hrun; simpl;
    apply do_run_spawned in Hrun; rewrite ?promote_spawned; (split; [exact Hrun|]).
  - discriminate.
  - by intros p [= <-].
Qed.

(** X15: a names record that cannot give the read-group string stops
    [align_pipe] with that [KeyError] before anything is spawned, even when
    the output is already there; [align_bam] renders the string inside the
    guard, so it still returns an existing output and raises only when it
    would have to run; [align] never raises a [KeyError], it leaves the
    read group out. *)
Theorem incomplete_read_group_record :
  (∀ in_bam ref_file names align_dir config w out_file args e,
     sort_bam_path align_dir names = inr out_file →
     _novoalignCS_args_from_config config false = inr args →
     get_rg_info names = inl e →
     (os_path_exists (files w) out_file = true →
        run_bam in_bam ref_file names align_dir config w = (inr out_file, w))
     ∧ (os_path_exists (files w) out_file = false →
        ∃ w', run_bam in_bam ref_file names align_dir config w = (inl e, w')
              ∧ spawned w' = spawned w))
  ∧ (∀ fastq_file pair_file ref_file names align_dir data w
       out_file final_file data' fastq_file' pair_file' args e,
     align_pipe_inputs setup_combine split_namedpipe_cl fastq_file pair_file names
       align_dir data = inr (out_file, final_file, data', fastq_file', pair_file') →
     _novoalignCS_args_from_config (sample_config data') true = inr args →
     get_rg_info names = inl e →
     run_pipe fastq_file pair_file ref_file names align_dir data w = (inl e, w))
  ∧ (∀ fastq_file pair_file ref_file out_base align_dir config extra_args names w e w' k,
     run_align fastq_file pair_file ref_file out_base align_dir config extra_args names w
     = (inl e, w') →
     e ≠ KeyError k).
Proof.
  split; [|split].
  - intros in_bam ref_file names align_dir config w out_file args e Hout Hargs Hrg.
    unfold align_bam, seq, lift, file_exists, ret. rewrite Hout, Hargs. split.
    + intros ->. reflexivity.
    + intros ->. simpl. unfold file_transaction, seq, lift, align_bam_cmd.
      rewrite Hrg. simpl. by eexists.
  - intros fastq_file pair_file ref_file names align_dir data w
      out_file final_file data' fastq_file' pair_file' args e Hin Hargs Hrg.
    unfold align_pipe, seq, lift. by rewrite Hin, Hargs, Hrg.
  - intros fastq_file pair_file ref_file out_base align_dir config extra_args names
      w e w' k H.
    unfold align, seq, lift, file_exists, ret in H.
    destruct (os_path_exists (files w) _); simpl in H; [discriminate H|].
    destruct (align_cl _ _ _ _ _ _ _) as [e0|cl] eqn:Hcl.
    { injection H as -> _. unfold align_cl in Hcl.
      destruct (_novoalignCS_args_from_config config true) eqn:Hargs; [|discriminate Hcl].
      injection Hcl as ->. by eapply args_error_not_KeyError. }
    unfold file_transaction, do_run in H.
    destruct (negb (exit_ok _)); simpl in H; [|discriminate H].
    by injection H as <- _.
Qed.

End PipelineFurther.

Lemma successful_run_leaves_nonempty_output_witness :
  let r1 := align_bam prog tmpdir tx sh_ok any_size "in.bam" "/g/ref.fa" names_rgL1
              "/w/align/S1" (cfg [] []) w0 in
  let r2 := align_pipe prog tx sh_ok any_size no_combine no_split "r1.fq" (Some "r2.fq")
              "/g/ref.fa" names_rgL1 "/w/align/S1" data0 w0 in
  (∃ n, files (snd r1) !! "/w/align/S1/L1-sort.bam" = Some n ∧ (0 < n)%N)
  ∧ (∃ n, files (snd r2) !! "/w/align/S1/L1-sort.bam" = Some n ∧ (0 < n)%N).
Proof.
  intros r1 r2.
  pose proof (successful_run_leaves_nonempty_output prog tmpdir tx sh_ok any_size
                no_combine no_split) as [Hbam Hpipe].
  split.
  - apply (Hbam "in.bam" "/g/ref.fa" names_rgL1 "/w/align/S1" (cfg [] []) w0
             "/w/align/S1/L1-sort.bam" (snd r1) "/w/align/S1/L1-sort.bam");
      vm_compute; reflexivity.
  - apply (Hpipe "r1.fq" (Some "r2.fq") "/g/ref.fa" names_rgL1 "/w/align/S1" data0 w0
             (set_work_bam data0 "/w/align/S1/L1-sort.bam") (snd r2)
             "/w/align/S1/L1-sort.bam" None data0 "r1.fq" "r2.fq");
      [vm_compute; reflexivity | vm_compute; reflexivity | discriminate
      | vm_compute; reflexivity].
Defined.

Lemma align_has_no_postcondition_witness :
  let r := align prog tx sh_empty "r1.fq" None "/g/ref.fa" "L1" "/w/align/S1" (cfg [] [])
             None (Some names_rgL1) w0 in
  ∃ cmd, spawned (snd r) = [cmd]
         ∧ (exit_ok (sh_empty cmd (files w0)) = true →
            fst r = inr "/w/align/S1/L1.sam"
            ∧ files (snd r) !! "/w/align/S1/L1.sam" = Some 0%N).
Proof.
  apply (align_has_no_postcondition prog tx sh_empty "r1.fq" None "/g/ref.fa" "L1"
           "/w/align/S1" (cfg [] []) None (Some names_rgL1) w0
           ["-F"; "BFAST"; "-r"; "None"; "-o"; "FullNW"; "-k"]);
    vm_compute; reflexivity.
Defined.

Lemma align_bam_four_stages_witness :
  let r := align_bam prog tmpdir tx sh_ok any_size "in.bam" "/g/ref.fa" names_rgL1
             "/w/align/S1" (cfg [("num_cores", PyInt 8)] [("memory", PyStr "2G")]) w0 in
  spawned (snd r)
  = [pipe [ "novosort -c 8 -m 2G --compression 0  -n -t /tmp/wd in.bam ";
            "novoalignCS -o SAM '@RG\tID:L1\tPL:illumina\tPU:unit1\tSM:S1' -d /g/ref.fa -f /dev/stdin   -F BAMPE -c 8 -r None -o FullNW -k ";
            "samtools view -b -S -u - ";
            "novosort -c 8 -m 2G -t /tmp/wd   -o /tx/w/align/S1/L1-sort.bam /dev/stdin" ]]
  ∧ (∀ p, fst r = inr p → p = "/w/align/S1/L1-sort.bam").
Proof.
  apply (align_bam_four_stages prog tmpdir tx sh_ok any_size "in.bam" "/g/ref.fa"
           names_rgL1 "/w/align/S1"
           (cfg [("num_cores", PyInt 8)] [("memory", PyStr "2G")])
           (PyStr "L1") ["-r"; "None"; "-o"; "FullNW"; "-k"]
           "@RG\tID:L1\tPL:illumina\tPU:unit1\tSM:S1" w0);
    vm_compute; reflexivity.
Defined.

Lemma incomplete_read_group_record_witness :
  align_bam prog tmpdir tx sh_ok any_size "in.bam" "/g/ref.fa" names_L1
    "/w/align/S1" (cfg [] []) w_done
  = (inr "/w/align/S1/L1-sort.bam", w_done)
  ∧ align_pipe prog tx sh_ok any_size no_combine no_split "r1.fq" None
      "/g/ref.fa" names_L1 "/w/align/S1" data0 w_done
    = (inl (KeyError "rg"), w_done).
Proof.
  pose proof (incomplete_read_group_record prog tmpdir tx sh_ok any_size
                no_combine no_split) as (Hbam & Hpipe & _).
  split.
  - apply (proj1 (Hbam "in.bam" "/g/ref.fa" names_L1 "/w/align/S1" (cfg [] []) w_done
                    "/w/align/S1/L1-sort.bam" ["-r"; "None"; "-o"; "FullNW"; "-k"]
                    (KeyError "rg") eq_refl eq_refl eq_refl)).
    vm_compute. reflexivity.
  - apply (Hpipe "r1.fq" None "/g/ref.fa" names_L1 "/w/align/S1" data0 w_done
             "/w/align/S1/L1-sort.bam" None data0 "r1.fq" EmptyString
             ["-F"; "BFAST"; "-r"; "None"; "-o"; "FullNW"; "-k"] (KeyError "rg"));
      vm_compute; reflexivity.
Defined.

(** ** Read numbers *)

Lemma write_records_succ (i : nat) (records : list (string * string * string)) :
  write_records (S i) records = (fastq_text rsplit1_head records, false).
Proof.
  revert i. induction records as [|[[name seq] qual] rest IH]; intros i; [reflexivity|].
  simpl. by rewrite IH.
Qed.

Lemma write_records_first (name seq qual : string) (rest : list (string * string * string)) :
  write_records 0 ((name, seq, qual) :: rest)
  = if endswith "/1" name
    then (fastq_text rsplit1_head ((name, seq, qual) :: rest), false)
    else (EmptyString, true).
Proof.
  simpl. destruct (endswith "/1" name); simpl; [|reflexivity].
  by rewrite write_records_succ.
Qed.

Lemma fastq_text_not_empty (rename : string → string)
  (records : list (string * string * string)) :
  records ≠ [] → (String.length (fastq_text rename records) =? 0)%nat = false.
Proof. destruct records as [|[[name seq] qual] rest]; [done | reflexivity]. Qed.

Lemma rfind_from_slash_1 (n : string) (i last : Z) :
  rfind_from "/" i (n +:+ "/1") last = i + Z.of_nat (String.length n).
Proof.
  revert i last. induction n as [|c n IH]; intros i last.
  - simpl. lia.
  - rewrite append_cons. simpl. rewrite IH. lia.
Qed.

Lemma substring_prefix (n r : string) : substring 0 (String.length n) (n +:+ r) = n.
Proof.
  induction n as [|c n IH].
  - by destruct r.
  - rewrite append_cons. simpl. by rewrite IH.
Qed.

(** cutting at the last slash undoes the adding of a read number *)
Lemma rsplit1_head_read_number (n : string) : rsplit1_head (n +:+ "/1") = n.
Proof.
  unfold rsplit1_head, rfind, slice_to. rewrite rfind_from_slash_1.
  destruct (Z.ltb_spec (0 + Z.of_nat (String.length n)) 0) as [H|_]; [lia|].
  replace (Z.to_nat (0 + Z.of_nat (String.length n))) with (String.length n) by lia.
  apply substring_prefix.
Qed.

Lemma endswith_read_number (n : string) : endswith "/1" (n +:+ "/1") = true.
Proof.
  unfold endswith.
  assert (∀ m r, String.length (m +:+ r) = (String.length m + String.length r)%nat) as Hlen.
  { intros m r. induction m as [|c m IH]; [reflexivity|]. rewrite append_cons. simpl. by rewrite IH. }
  rewrite Hlen. simpl String.length.
  replace (String.length n + 2 - 2)%nat with (String.length n) by lia.
  apply andb_true_iff. split; [apply Nat.leb_le; lia|].
  apply String.eqb_eq. induction n as [|c n IH]; [reflexivity|].
  rewrite append_cons. simpl. exact IH.
Qed.

Section ReadNumberProperties.

Variable tx_path : string → string.
Variable FastqGeneralIterator : string → list (string * string * string).

Local Abbreviation remove := (_remove_read_number tx_path FastqGeneralIterator).

Lemma promote_text_final (tmp final text : string) (disk : gmap string string) :
  promote_text tmp final (<[tmp := text]> disk) !! final = Some text.
Proof. unfold promote_text. rewrite lookup_insert_eq. apply lookup_insert_eq. Qed.

Lemma promote_text_other (tmp final text0 text p : string) (disk : gmap string string) :
  p ≠ final → p ≠ tmp →
  promote_text tmp final (<[tmp := text]> (<[tmp := text0]> disk)) !! p = disk !! p.
Proof.
  intros Hf Ht. unfold promote_text. rewrite lookup_insert_eq.
  by rewrite lookup_insert_ne, lookup_delete_ne, !lookup_insert_ne.
Qed.

(** what the first call does when the safe file is not there yet *)
Lemma remove_first_call (in_file sam_file text : string) (disk : gmap string string) :
  disk !! in_file = Some text →
  disk !! safe_path in_file sam_file = None →
  tx_path (safe_path in_file sam_file) ≠ in_file →
  let out_file := safe_path in_file sam_file in
  let wr := write_records 0 (FastqGeneralIterator text) in
  remove in_file sam_file disk
  = (inr (if snd wr then in_file else out_file),
     promote_text (tx_path out_file) out_file
       (<[tx_path out_file := fst wr]> (<[tx_path out_file := EmptyString]> disk))).
Proof.
  intros Hin Hout Htx out_file wr. subst out_file wr. unfold _remove_read_number.
  cbv zeta. rewrite Hout, Hin. rewrite lookup_insert_ne by done. rewrite Hin. simpl.
  by destruct (write_records 0 (FastqGeneralIterator text)).
Qed.

(** X16: the first call decides by the first record alone, and the decision
    is remembered on disk: when the first name does not end in [/1] the
    input path is returned and an empty file is left at the safe path;
    otherwise the safe path is returned.  For an input with at least one
    record a second call answers the same and changes nothing. *)
Theorem remove_read_number_is_resumable
  (in_file sam_file text : string) (disk : gmap string string)
  (name seq qual : string) (rest : list (string * string * string)) :
  disk !! in_file = Some text →
  disk !! safe_path in_file sam_file = None →
  tx_path (safe_path in_file sam_file) ≠ in_file →
  FastqGeneralIterator text = (name, seq, qual) :: rest →
  let out_file := safe_path in_file sam_file in
  let r := remove in_file sam_file disk in
  fst r = inr (if endswith "/1" name then out_file else in_file)
  ∧ (endswith "/1" name = false → snd r !! out_file = Some EmptyString)
  ∧ remove in_file sam_file (snd r) = r.
Proof.
  intros Hin Hout Htx Hrec out_file r. subst r out_file.
  rewrite (remove_first_call _ _ _ _ Hin Hout Htx).
  rewrite Hrec, write_records_first.
  destruct (endswith "/1" name) eqn:He; cbn [fst snd].
  - split; [reflexivity|]. split; [discriminate|].
    unfold _remove_read_number at 1. cbv zeta. rewrite promote_text_final.
    by rewrite fastq_text_not_empty.
  - split; [reflexivity|]. split; [intros _; apply promote_text_final|].
    unfold _remove_read_number at 1. cbv zeta. by rewrite promote_text_final.
Qed.

(** X17: when every record carries the read number [/1], the safe file
    holds the same records in the same order with the read number cut from
    each name, sequence and qualities as they were, and the safe path is
    returned. *)
Theorem remove_read_number_strips_read_numbers
  (in_file sam_file text : string) (disk : gmap string string)
  (base : list (string * string * string)) :
  disk !! in_file = Some text →
  disk !! safe_path in_file sam_file = None →
  tx_path (safe_path in_file sam_file) ≠ in_file →
  FastqGeneralIterator text = map (λ '(name, seq, qual), (name +:+ "/1", seq, qual)) base →
  let out_file := safe_path in_file sam_file in
  let r := remove in_file sam_file disk in
  fst r = inr out_file
  ∧ snd r !! out_file = Some (fastq_text id base).
Proof.
  intros Hin Hout Htx Hrec out_file r. subst r out_file.
  rewrite (remove_first_call _ _ _ _ Hin Hout Htx). rewrite Hrec.
  assert (∀ l, fastq_text rsplit1_head
                 (map (λ '(name, seq, qual), (name +:+ "/1", seq, qual)) l)
               = fastq_text id l) as Htext.
  { induction l as [|[[n s] q] l IH]; [reflexivity|].
    cbn [map fastq_text]. by rewrite rsplit1_head_read_number, IH. }
  destruct base as [|[[n s] q] base].
  - cbn. split; [reflexivity | apply promote_text_final].
  - change (map _ ((n, s, q) :: base))
      with ((n +:+ "/1", s, q)
            :: map (λ '(name, seq, qual), (name +:+ "/1", seq, qual)) base).
    rewrite write_records_first, endswith_read_number. cbn [fst snd].
    split; [reflexivity|]. rewrite promote_text_final. f_equal.
    exact (Htext ((n, s, q) :: base)).
Qed.

(** X18: whatever it returns, [_remove_read_number] changes no file but the
    one at the safe path and the one at its temporary path; the input in
    particular keeps its text. *)
Theorem remove_read_number_touches_only_safe_file
  (in_file sam_file : string) (disk : gmap string string) (p : string) :
  let out_file := safe_path in_file sam_file in
  p ≠ out_file → p ≠ tx_path out_file →
  snd (remove in_file sam_file disk) !! p = disk !! p.
Proof.
  intros out_file Hout Htx. subst out_file. unfold _remove_read_number. cbv zeta.
  destruct (disk !! safe_path in_file sam_file) as [text|].
  - by destruct (String.length text =? 0)%nat.
  - destruct (disk !! in_file) as [text|]; cbn [snd].
    + destruct (write_records 0 _) as [t b]. cbn [snd]. by apply promote_text_other.
    + by rewrite lookup_delete_ne.
Qed.

(** X19: for an input without records the two calls disagree: the first
    leaves an empty safe file and returns its path, the second takes the
    empty file for the mark of a skipped removal and returns the input. *)
Theorem remove_read_number_on_empty_input
  (in_file sam_file text : string) (disk : gmap string string) :
  disk !! in_file = Some text →
  disk !! safe_path in_file sam_file = None →
  tx_path (safe_path in_file sam_file) ≠ in_file →
  FastqGeneralIterator text = [] →
  let out_file := safe_path in_file sam_file in
  let r := remove in_file sam_file disk in
  fst r = inr out_file
  ∧ snd r !! out_file = Some EmptyString
  ∧ remove in_file sam_file (snd r) = (inr in_file, snd r).
Proof.
  intros Hin Hout Htx Hrec out_file r. subst r out_file.
  rewrite (remove_first_call _ _ _ _ Hin Hout Htx). rewrite Hrec. cbn [write_records fst snd].
  split; [reflexivity|]. split; [apply promote_text_final|].
  unfold _remove_read_number. cbv zeta. by rewrite promote_text_final.
Qed.

End ReadNumberProperties.

Lemma remove_read_number_is_resumable_witness :
  let disk : gmap string string := {[ "/d/reads.fq" := "single" ]} in
  let r := _remove_read_number tx parse_example "/d/reads.fq" "/w/align/L1.sam" disk in
  fst r = inr "/d/reads.fq"
  ∧ snd r !! "/w/align/reads-safe.fq" = Some EmptyString
  ∧ _remove_read_number tx parse_example "/d/reads.fq" "/w/align/L1.sam" (snd r) = r.
Proof.
  intros disk r.
  destruct (remove_read_number_is_resumable tx parse_example "/d/reads.fq"
              "/w/align/L1.sam" "single" disk "r1" "AC" "II" [("r2", "GT", "II")])
    as (H1 & H2 & H3); [vm_compute; reflexivity | vm_compute; reflexivity
                       | vm_compute; discriminate | vm_compute; reflexivity |].
  split; [exact H1|]. split; [exact (H2 eq_refl) | exact H3].
Defined.

Lemma remove_read_number_strips_read_numbers_witness :
  let disk : gmap string string := {[ "/d/reads.fq" := "paired" ]} in
  let r := _remove_read_number tx parse_example "/d/reads.fq" "/w/align/L1.sam" disk in
  fst r = inr "/w/align/reads-safe.fq"
  ∧ snd r !! "/w/align/reads-safe.fq"
    = Some (fastq_text id [("r1", "AC", "II"); ("r2", "GT", "II")]).
Proof.
  intros disk r.
  apply (remove_read_number_strips_read_numbers tx parse_example "/d/reads.fq"
           "/w/align/L1.sam" "paired" disk [("r1", "AC", "II"); ("r2", "GT", "II")]);
    [vm_compute; reflexivity | vm_compute; reflexivity
    | vm_compute; discriminate | vm_compute; reflexivity].
Defined.

Lemma remove_read_number_touches_only_safe_file_witness :
  let disk : gmap string string := {[ "/d/reads.fq" := "paired" ]} in
  snd (_remove_read_number tx parse_example "/d/reads.fq" "/w/align/L1.sam" disk)
    !! "/d/reads.fq"
  = Some "paired".
Proof.
  intros disk.
  rewrite (remove_read_number_touches_only_safe_file tx parse_example "/d/reads.fq"
             "/w/align/L1.sam" disk "/d/reads.fq");
    [reflexivity | vm_compute; discriminate | vm_compute; discriminate].
Defined.

Lemma remove_read_number_on_empty_input_witness :
  let disk : gmap string string := {[ "/d/reads.fq" := "nothing" ]} in
  let r := _remove_read_number tx parse_example "/d/reads.fq" "/w/align/L1.sam" disk in
  fst r = inr "/w/align/reads-safe.fq"
  ∧ snd r !! "/w/align/reads-safe.fq" = Some EmptyString
  ∧ _remove_read_number tx parse_example "/d/reads.fq" "/w/align/L1.sam" (snd r)
    = (inr "/d/reads.fq", snd r).
Proof.
  intros disk r.
  apply (remove_read_number_on_empty_input tx parse_example "/d/reads.fq"
           "/w/align/L1.sam" "nothing" disk);
    [vm_compute; reflexivity | vm_compute; reflexivity
    | vm_compute; discriminate | vm_compute; reflexivity].
Defined.

Example remove_read_number_missing_input :
  _remove_read_number tx parse_example "/d/reads.fq" "/w/align/L1.sam" ∅
  = (inl (IOError "/d/reads.fq"), ∅).
Proof. vm_compute. reflexivity. Qed.

